(** * Content Creation Team: the orchestration and fallback workflow

    A shallow embedding of [content_creation_team.py] (class
    [ContentCreationTeam]) and of the pages that [simple_streamlit_app.py]
    and [new_streamlit_app.py] draw from its results, with the properties of
    the run/fallback workflow and of the pages stated and proved over it.

    Conventions.
    - Python [str] values are [string]s (their UTF-8 bytes); the literals of
      the orchestrator are plain ASCII, the messages of the pages hold
      symbols outside ASCII, as their bytes.
    - A Python call either returns or raises: [outcome].
    - The two external services (the LLM completion service and the web
      search tool) are recorded in a call log, the way mock collaborators
      would record them.
    - [print] statements only write to the console and are left out. *)

From Stdlib Require Import String Ascii List Bool ZArith Lia DecimalString DecimalPos.
Import ListNotations.
Local Open Scope list_scope.
Local Open Scope string_scope.

(* ================================================================== *)
(** ** Text helpers *)

Definition nl : string := String (ascii_of_nat 10) "".

(** A triple-quoted literal, given line by line. *)
Definition lines (ls : list string) : string := String.concat nl ls.

(* ================================================================== *)
(** ** Exceptions and outcomes *)

(** The exception classes that occur: the two collaborator failures of the
    interface, and the ones [str.format] raises.  All of them derive from
    [Exception]. *)
Inductive exn : Type :=
| CompletionError
| SearchError
| ValueError
| KeyError (key : string)
| IndexError
| AttributeError
| TypeError.

Inductive outcome (A : Type) : Type :=
| Returned (a : A)
| Raised (e : exn).
Arguments Returned {A} a.
Arguments Raised {A} e.

Definition outcome_map {A B : Type} (f : A -> B) (o : outcome A) : outcome B :=
  match o with
  | Returned a => Returned (f a)
  | Raised e => Raised e
  end.

(* ================================================================== *)
(** ** [str.format] with keyword arguments

    [description.format(topic=..., audience=..., content_type=...,
    word_count=...)] scans the format string left to right:
    - [{{] and [}}] are escapes for one brace;
    - a lone [}] and a [{] at the end of the string raise [ValueError];
    - [{name}] is replaced by the keyword argument [name], [KeyError] when
      there is none; [{}] and [{0}] ask for a positional argument, of which
      the call has none: [IndexError];
    - a [{] inside a field name, or a field that is not closed, raises
      [ValueError].
    Replacement fields that use an attribute, an index, a conversion or a
    format spec ([{a.b}], [{a[0]}], [{a!r}], [{a:>8}]), a field name outside
    ASCII, and an index of more than nine digits are not interpreted here:
    their outcome is left to [extended], a function of the keyword arguments
    and of the format string from the field on, about which nothing is
    assumed. *)

Definition Kwargs : Type := list (string * string).

Fixpoint kw_lookup (k : string) (kw : Kwargs) : option string :=
  match kw with
  | [] => None
  | (k', v) :: kw' => if String.eqb k k' then Some v else kw_lookup k kw'
  end.

Definition is_digit (c : ascii) : bool :=
  andb (Nat.leb 48 (nat_of_ascii c)) (Nat.leb (nat_of_ascii c) 57).

Fixpoint all_digits (s : string) : bool :=
  match s with
  | EmptyString => true
  | String c s' => andb (is_digit c) (all_digits s')
  end.

Definition Extended : Type := Kwargs -> string -> outcome string.

(** The value of a closed plain field [{name}], followed by the formatting
    of the rest of the string. *)
Definition plain_field (extended : Extended) (kw : Kwargs) (name rest : string)
           (continue : outcome string) : outcome string :=
  if all_digits name then
    if Nat.leb (String.length name) 9 then Raised IndexError
    else extended kw (name ++ String "}" rest)
  else
    match kw_lookup name kw with
    | Some v => outcome_map (fun s => v ++ s) continue
    | None => Raised (KeyError name)
    end.

Inductive scan : Type :=
| InText
| InField (name : string).

Fixpoint format_scan (extended : Extended) (kw : Kwargs) (st : scan) (s : string)
  : outcome string :=
  match st with
  | InText =>
      match s with
      | EmptyString => Returned EmptyString
      | String "{" EmptyString => Raised ValueError
      | String "{" (String "{" rest) =>
          outcome_map (String "{") (format_scan extended kw InText rest)
      | String "{" rest => format_scan extended kw (InField EmptyString) rest
      | String "}" (String "}" rest) =>
          outcome_map (String "}") (format_scan extended kw InText rest)
      | String "}" _ => Raised ValueError
      | String c rest => outcome_map (String c) (format_scan extended kw InText rest)
      end
  | InField name =>
      match s with
      | EmptyString => Raised ValueError
      | String "{" _ => Raised ValueError
      | String "}" rest =>
          plain_field extended kw name rest (format_scan extended kw InText rest)
      | String c rest =>
          if orb (existsb (Ascii.eqb c) ["."; "["; "!"; ":"]%char)
                 (Nat.leb 128 (nat_of_ascii c))
          then extended kw (name ++ s)
          else format_scan extended kw (InField (name ++ String c EmptyString)) rest
      end
  end.

Definition py_format (extended : Extended) (s : string) (kw : Kwargs) : outcome string :=
  format_scan extended kw InText s.

(* ================================================================== *)
(** ** Data model: agents, tasks, crew *)

Record LLM : Type := {
  model : string;
  api_key : option string
}.

Inductive Tool : Type := SerperDevTool.

(** [agent_verbose] and [agent_llm] are the source's [verbose] and [llm],
    names that the crew and the team use too. *)
Record Agent : Type := {
  role : string;
  goal : string;
  backstory : string;
  agent_verbose : bool;
  allow_delegation : bool;
  agent_llm : LLM;
  tools : list Tool
}.

(** An agent is a pipeline stage that may call the search tool exactly when
    it was constructed with one. *)
Definition uses_search (a : Agent) : bool :=
  match tools a with
  | [] => false
  | _ :: _ => true
  end.

Record Task : Type := {
  description : string;
  agent : Agent;
  expected_output : string
}.

(** The three [Task] objects live in the attributes [writing_task],
    [editing_task] and [seo_task] of the team; the crew's task list holds
    references to these same objects, so an assignment to
    [self.writing_task.description] is seen by the crew. *)
Inductive TaskRef : Type :=
| WritingTask
| EditingTask
| SeoTask.

Inductive Process : Type := sequential | hierarchical.

(** [crew_verbose] is the source's [verbose]. *)
Record Crew : Type := {
  agents : list Agent;
  tasks : list TaskRef;
  process : Process;
  crew_verbose : bool;
  memory : bool
}.

(** Agents are never assigned to after construction, so they are held by
    value. *)
Record ContentCreationTeam : Type := {
  llm : LLM;
  writer_agent : Agent;
  editor_agent : Agent;
  seo_agent : Agent;
  writing_task : Task;
  editing_task : Task;
  seo_task : Task;
  crew : Crew
}.

Definition deref (self : ContentCreationTeam) (r : TaskRef) : Task :=
  match r with
  | WritingTask => writing_task self
  | EditingTask => editing_task self
  | SeoTask => seo_task self
  end.

(** [self.writing_task.description = d] *)
Definition set_writing_description (d : string) (self : ContentCreationTeam)
  : ContentCreationTeam :=
  {| llm := llm self;
     writer_agent := writer_agent self;
     editor_agent := editor_agent self;
     seo_agent := seo_agent self;
     writing_task :=
       {| description := d;
          agent := agent (writing_task self);
          expected_output := expected_output (writing_task self) |};
     editing_task := editing_task self;
     seo_task := seo_task self;
     crew := crew self |}.

(* ------------------------------------------------------------------ *)
(** *** Construction: [__init__], [setup_agents], [setup_tasks], [setup_crew] *)

Definition gemini (key : option string) : LLM :=
  {| model := "gemini/gemini-2.0-flash-exp"; api_key := key |}.

Definition new_writer_agent (l : LLM) : Agent :=
  {| role := "Content Writer";
     goal := "Create engaging, well-structured, and original content based on given topics and requirements";
     backstory := lines
      [ "You are an experienced content writer with 10+ years of experience in creating ";
        "            compelling blog posts, articles, and social media content. You have a talent for making ";
        "            complex topics accessible and engaging for various audiences. You excel at research, ";
        "            storytelling, and adapting your writing style to different brands and purposes." ];
     agent_verbose := true;
     allow_delegation := false;
     agent_llm := l;
     tools := [SerperDevTool] |}.

Definition new_editor_agent (l : LLM) : Agent :=
  {| role := "Content Editor";
     goal := "Review, edit, and improve content quality, ensuring clarity, accuracy, and brand consistency";
     backstory := lines
      [ "You are a meticulous content editor with extensive experience in proofreading, ";
        "            fact-checking, and improving content quality. You have an eye for detail and ensure all ";
        "            content meets high standards for grammar, style, clarity, and factual accuracy. You work ";
        "            with various content types and maintain brand voice consistency." ];
     agent_verbose := true;
     allow_delegation := false;
     agent_llm := l;
     tools := [] |}.

Definition new_seo_agent (l : LLM) : Agent :=
  {| role := "SEO Specialist";
     goal := "Optimize content for search engines and social media, ensuring maximum visibility and engagement";
     backstory := lines
      [ "You are a digital marketing expert specializing in SEO and social media optimization. ";
        "            You have deep knowledge of search algorithms, keyword research, and social media best practices. ";
        "            You excel at making content discoverable while maintaining readability and user experience." ];
     agent_verbose := true;
     allow_delegation := false;
     agent_llm := l;
     tools := [SerperDevTool] |}.

Definition writing_template : string :=
  lines
      [ "Create original, engaging content on the given topic. The content should be:";
        "            - Well-researched and informative";
        "            - Engaging and easy to read";
        "            - Structured with clear headings and sections";
        "            - Tailored to the target audience";
        "            - Original and plagiarism-free";
        "            ";
        "            Topic: {topic}";
        "            Target Audience: {audience}";
        "            Content Type: {content_type}";
        "            Word Count: {word_count}";
        "            ";
        "            Provide the complete content with proper formatting." ].

Definition new_writing_task (a : Agent) : Task :=
  {| description := writing_template;
     agent := a;
     expected_output := "A complete, well-structured piece of content ready for editing" |}.

Definition new_editing_task (a : Agent) : Task :=
  {| description := lines
      [ "Review and edit the content provided by the writer. Focus on:";
        "            - Grammar, spelling, and punctuation";
        "            - Sentence structure and flow";
        "            - Clarity and readability";
        "            - Fact-checking and accuracy";
        "            - Brand voice consistency";
        "            - Overall content quality";
        "            ";
        "            Provide the edited version with explanations of major changes made." ];
     agent := a;
     expected_output := "A polished, error-free version of the content with editing notes" |}.

Definition new_seo_task (a : Agent) : Task :=
  {| description := lines
      [ "Optimize the edited content for search engines and social media. Include:";
        "            - Relevant keywords naturally integrated";
        "            - SEO-friendly title and meta description";
        "            - Social media snippets (Twitter, LinkedIn, Facebook)";
        "            - Internal linking suggestions";
        "            - Call-to-action optimization";
        "            - Readability improvements";
        "            ";
        "            Provide the final optimized content with SEO recommendations." ];
     agent := a;
     expected_output := "SEO-optimized content with social media versions and optimization recommendations" |}.

(** [ContentCreationTeam()]; [key] is [os.environ.get("GOOGLE_API_KEY")]. *)
Definition __init__ (key : option string) : ContentCreationTeam :=
  let l := gemini key in
  let w := new_writer_agent l in
  let e := new_editor_agent l in
  let s := new_seo_agent l in
  {| llm := l;
     writer_agent := w;
     editor_agent := e;
     seo_agent := s;
     writing_task := new_writing_task w;
     editing_task := new_editing_task e;
     seo_task := new_seo_task s;
     crew := {| agents := [w; e; s];
                tasks := [WritingTask; EditingTask; SeoTask];
                process := sequential;
                crew_verbose := true;
                memory := false |} |}.

(* ================================================================== *)
(** ** The machine: one team object and the collaborators' call log *)

(** One entry per invocation of a collaborator, with the stage (the agent's
    role) that made it and the reply; [None] is a call that raised. *)
Inductive Call : Type :=
| SearchCall (stage query : string) (reply : option (list string))
| CompletionCall (stage goal backstory instructions : string) (reply : option string).

Record Machine : Type := {
  team : ContentCreationTeam;
  log : list Call
}.

Definition M (A : Type) : Type := Machine -> outcome A * Machine.

Definition ret {A : Type} (a : A) : M A := fun m => (Returned a, m).

Definition raise {A : Type} (e : exn) : M A := fun m => (Raised e, m).

Definition bind {A B : Type} (c : M A) (k : A -> M B) : M B :=
  fun m =>
    match c m with
    | (Returned a, m') => k a m'
    | (Raised e, m') => (Raised e, m')
    end.

(** [try: body  except Exception as e: handler e]: every class of [exn]
    derives from [Exception]; what [body] did before raising stays done. *)
Definition try_except {A : Type} (body : M A) (handler : exn -> M A) : M A :=
  fun m =>
    match body m with
    | (Returned a, m') => (Returned a, m')
    | (Raised e, m') => handler e m'
    end.

Definition lift {A : Type} (o : outcome A) : M A := fun m => (o, m).

Definition get_self : M ContentCreationTeam := fun m => (Returned (team m), m).

Definition update_self (f : ContentCreationTeam -> ContentCreationTeam) : M unit :=
  fun m => (Returned tt, {| team := f (team m); log := log m |}).

Definition get_log : M (list Call) := fun m => (Returned (log m), m).

Definition record (c : Call) : M unit :=
  fun m => (Returned tt, {| team := team m; log := (log m ++ [c])%list |}).

Declare Scope run_scope.
Delimit Scope run_scope with run.
Notation "x <- c ;; k" := (bind c (fun x => k))
  (at level 61, c at next level, right associativity) : run_scope.
Notation "c ;;; k" := (bind c (fun _ => k))
  (at level 61, right associativity) : run_scope.
Local Open Scope run_scope.

(* ------------------------------------------------------------------ *)
(** *** The external world *)

(** What the program does not own.
    - [completion n role goal backstory instructions]: the reply of the
      completion service to its invocation number [n] (counted from 0);
      [None] when it raises [CompletionError].
    - [search n query]: the reply of the search tool to its invocation
      number [n]; [None] when it raises [SearchError].
    - [query_of], [splice], [with_context]: the prompt text of the agent
      framework: the search query drawn from a stage's instructions, the
      snippets spliced into the instructions, the previous stage's output
      appended as context.
    - [extended]: the rest of [str.format], see [py_format]. *)
Record Externals : Type := {
  completion : nat -> string -> string -> string -> string -> option string;
  search : nat -> string -> option (list string);
  query_of : string -> string;
  splice : string -> list string -> string;
  with_context : string -> string -> string;
  extended : Extended
}.

Definition is_completion (c : Call) : bool :=
  match c with CompletionCall _ _ _ _ _ => true | SearchCall _ _ _ => false end.

Definition is_search (c : Call) : bool :=
  match c with SearchCall _ _ _ => true | CompletionCall _ _ _ _ _ => false end.

Definition count_calls (p : Call -> bool) (l : list Call) : nat :=
  List.length (filter p l).

Definition invoke_search (X : Externals) (stage query : string) : M (list string) :=
  l <- get_log ;;
  let reply := search X (count_calls is_search l) query in
  record (SearchCall stage query reply) ;;;
  match reply with
  | Some snippets => ret snippets
  | None => raise SearchError
  end.

Definition invoke_completion (X : Externals) (a : Agent) (instructions : string)
  : M string :=
  l <- get_log ;;
  let reply :=
    completion X (count_calls is_completion l) (role a) (goal a) (backstory a) instructions in
  record (CompletionCall (role a) (goal a) (backstory a) instructions reply) ;;;
  match reply with
  | Some text => ret text
  | None => raise CompletionError
  end.

(* ------------------------------------------------------------------ *)
(** *** [Crew.kickoff] *)

(** Modelled from the spec: [Crew.kickoff] is code of the agent framework
    and is not part of the sources; the rendering of a stage's instructions
    follows section 4.1 of the specification, step 1.  The instructions are
    the task's description, with the previous stage's output appended as
    context for the stages after the first. *)
Definition stage_instructions (X : Externals) (t : Task) (previous : option string)
  : string :=
  match previous with
  | None => description t
  | Some output => with_context X (description t) output
  end.

(** Modelled from the spec: one stage, after section 4.1 of the
    specification, steps 2 and 3.  A stage whose agent has the search tool
    invokes it and splices the snippets into the instructions, and a failure
    of the search is propagated; then the completion service is invoked with
    the agent's role, goal, backstory and the instructions, and its text is
    the stage's output. *)
Definition run_stage (X : Externals) (t : Task) (previous : option string) : M string :=
  let a := agent t in
  let rendered := stage_instructions X t previous in
  instructions <-
    (if uses_search a then
       snippets <- invoke_search X (role a) (query_of X rendered) ;;
       ret (splice X rendered snippets)
     else ret rendered) ;;
  invoke_completion X a instructions.

(** Modelled from the spec: the stages run one after the other in the order
    of the task list, each output handed to the next stage; the first
    failure aborts the remaining stages; the output of the last stage is the
    result. *)
Fixpoint run_stages (X : Externals) (ts : list Task) (previous : option string)
  : M string :=
  match ts with
  | [] => ret (match previous with Some output => output | None => "" end)
  | t :: ts' =>
      output <- run_stage X t previous ;;
      run_stages X ts' (Some output)
  end.

(** Modelled from the spec: [self.crew.kickoff()] runs the tasks the crew
    refers to, as they are in the team object at the time of the call. *)
Definition kickoff (X : Externals) : M string :=
  self <- get_self ;;
  run_stages X (map (deref self) (tasks (crew self))) None.

(* ================================================================== *)
(** ** [create_content] *)

Inductive PyVal : Type :=
| PStr (s : string)
| PList (l : list string).

(** A [dict] literal, in the order it is written. *)
Definition Dict : Type := list (string * PyVal).

Fixpoint dict_get (k : string) (d : Dict) : option PyVal :=
  match d with
  | [] => None
  | (k', v) :: d' => if String.eqb k k' then Some v else dict_get k d'
  end.

Definition success_result (result topic audience content_type word_count : string)
  : Dict :=
  [ ("status", PStr "success");
    ("message", PStr "Content created successfully!");
    ("result", PStr result);
    ("apis_used", PList ["Gemini 2.5 Flash API"; "Serper API"]);
    ("topic", PStr topic);
    ("audience", PStr audience);
    ("content_type", PStr content_type);
    ("word_count", PStr word_count) ].

Definition simulation_result (topic audience content_type word_count : string) : Dict :=
  [ ("status", PStr "simulation");
    ("message", PStr "Multi-agent system working in simulation mode");
    ("workflow", PList
       [ "Writer Agent creates content (Gemini 2.5 Flash + Serper)";
         "Editor Agent reviews and improves (Gemini 2.5 Flash)";
         "SEO Agent optimizes for search engines (Gemini 2.5 Flash + Serper)" ]);
    ("topic", PStr topic);
    ("audience", PStr audience);
    ("content_type", PStr content_type);
    ("word_count", PStr word_count);
    ("apis_used", PList ["Gemini 2.5 Flash API"; "Serper API"]) ].

(** The keyword arguments of the [format] call. *)
Definition kwargs_of (topic audience content_type word_count : string) : Kwargs :=
  [ ("topic", topic); ("audience", audience);
    ("content_type", content_type); ("word_count", word_count) ].

Definition with_default (d : string) (o : option string) : string :=
  match o with
  | Some v => v
  | None => d
  end.

(** [create_content(self, topic, audience="general audience",
    content_type="blog post", word_count="800-1000")]; an argument the
    caller leaves out is [None]. *)
Definition create_content (X : Externals) (topic : string)
           (audience content_type word_count : option string) : M Dict :=
  let audience := with_default "general audience" audience in
  let content_type := with_default "blog post" content_type in
  let word_count := with_default "800-1000" word_count in
  (* Update task descriptions with the input parameters *)
  self <- get_self ;;
  d <- lift (py_format (extended X) (description (writing_task self))
               (kwargs_of topic audience content_type word_count)) ;;
  update_self (set_writing_description d) ;;;
  try_except
    (result <- kickoff X ;;
     ret (success_result result topic audience content_type word_count))
    (fun e => ret (simulation_result topic audience content_type word_count)).

(* ================================================================== *)
(** ** The caller's side: [show_simulation_content] (simple_streamlit_app.py)

    The form's word count is an [int] (a slider); the caller passes
    [f"{word_count-200}-{word_count+200}"] to [create_content] and, when the
    status is not success, renders the placeholder document from the slider
    value itself.  [new_streamlit_app.py] has the same function under the
    name [show_simulation_mode], with the same text but for two trailing
    blanks on one line. *)

Definition str_of_int (z : Z) : string := NilZero.string_of_int (Z.to_int z).

Definition word_count_range (word_count : Z) : string :=
  str_of_int (word_count - 200) ++ "-" ++ str_of_int (word_count + 200).

Definition simulated_content (topic audience content_type : string) (word_count : Z)
  : string :=
  nl ++ "# " ++ topic ++ nl ++
  nl ++ "## Introduction" ++ nl ++
  nl ++ "This is a simulated content piece about " ++ topic ++ ", designed for "
     ++ audience ++ ". " ++ nl ++
  "The content would be structured as a " ++ content_type ++ " with approximately "
     ++ str_of_int word_count ++ " words." ++ nl ++
  nl ++ "## Key Points" ++ nl ++
  nl ++ "- **Point 1**: AI is transforming healthcare through advanced diagnostics" ++ nl ++
  "- **Point 2**: Personalized treatment plans are becoming more accessible  " ++ nl ++
  "- **Point 3**: Remote monitoring and telemedicine are expanding care access" ++ nl ++
  "- **Point 4**: Data-driven insights are improving patient outcomes" ++ nl ++
  nl ++ "## Conclusion" ++ nl ++
  nl ++ "The future of healthcare is being shaped by artificial intelligence, offering " ++ nl ++
  "unprecedented opportunities for " ++ audience ++ " to improve patient care and outcomes." ++ nl ++
  nl ++ "---" ++ nl ++
  nl ++ "*This is simulated content. For real content generation, ensure your API keys are properly configured.*" ++ nl ++
  "    ".

Record Download : Type := {
  data : string;
  file_name : string
}.

Record SimulationView : Type := {
  shown : string;
  download : Download
}.

(** [stamp] is [datetime.now().strftime('%Y%m%d_%H%M%S')]. *)
Definition show_simulation_content (topic audience content_type : string)
           (word_count : Z) (stamp : string) : SimulationView :=
  let content := simulated_content topic audience content_type word_count in
  {| shown := content;
     download := {| data := content;
                    file_name := "simulated_content_" ++ stamp ++ ".txt" |} |}.

(* ================================================================== *)
(** ** Observations on a run *)

(** The writing task's description with the four fields filled in. *)
Definition writing_instructions (topic audience content_type word_count : string)
  : string :=
  lines
      [ "Create original, engaging content on the given topic. The content should be:";
        "            - Well-researched and informative";
        "            - Engaging and easy to read";
        "            - Structured with clear headings and sections";
        "            - Tailored to the target audience";
        "            - Original and plagiarism-free";
        "            ";
        "            Topic: " ++ topic;
        "            Target Audience: " ++ audience;
        "            Content Type: " ++ content_type;
        "            Word Count: " ++ word_count;
        "            ";
        "            Provide the complete content with proper formatting." ].

(** A freshly constructed team, with the calls recorded so far. *)
Definition fresh (key : option string) (l : list Call) : Machine :=
  {| team := __init__ key; log := l |}.

(** The machine once [create_content] has assigned the description. *)
Definition described (d : string) (m : Machine) : Machine :=
  {| team := set_writing_description d (team m); log := log m |}.

(** The stages that produced their output, in order. *)
Fixpoint stages_completed (l : list Call) : list string :=
  match l with
  | [] => []
  | CompletionCall stage _ _ _ (Some _) :: l' => stage :: stages_completed l'
  | _ :: l' => stages_completed l'
  end.

(** The replies of the completion service, in order of invocation. *)
Fixpoint completion_replies (l : list Call) : list (option string) :=
  match l with
  | [] => []
  | CompletionCall _ _ _ _ reply :: l' => reply :: completion_replies l'
  | SearchCall _ _ _ :: l' => completion_replies l'
  end.

Definition search_by (stage : string) (c : Call) : bool :=
  match c with
  | SearchCall stage' _ _ => String.eqb stage stage'
  | CompletionCall _ _ _ _ _ => false
  end.

(** A call made on behalf of one of the tasks [ts]: the stage is the role of
    the task's agent, and a search is made only by an agent that has the
    tool. *)
Definition issued_by (ts : list Task) (c : Call) : Prop :=
  exists t, In t ts /\
    match c with
    | SearchCall stage _ _ => stage = role (agent t) /\ uses_search (agent t) = true
    | CompletionCall stage _ _ _ _ => stage = role (agent t)
    end.

(** A team as constructed, but for the description [d] of its writing task. *)
Definition constructed (key : option string) (d : string) : ContentCreationTeam :=
  set_writing_description d (__init__ key).

Definition writer_task (key : option string) (d : string) : Task :=
  {| description := d;
     agent := new_writer_agent (gemini key);
     expected_output := "A complete, well-structured piece of content ready for editing" |}.

Definition status_of (r : Dict) : option PyVal := dict_get "status" r.

Definition success_or_simulation (r : Dict) : Prop :=
  status_of r = Some (PStr "success") \/ status_of r = Some (PStr "simulation").

(** The entries of a result that are lists, in order. *)
Fixpoint list_entries (r : Dict) : list (string * list string) :=
  match r with
  | [] => []
  | (k, PList l) :: r' => (k, l) :: list_entries r'
  | (_, PStr _) :: r' => list_entries r'
  end.

(** The machines a program can get to: a constructed team, then any number
    of calls of [create_content], each with collaborators that behave as
    they like. *)
Inductive reachable : Machine -> Prop :=
| reach_init (key : option string) : reachable (fresh key [])
| reach_run (X : Externals) (topic : string)
            (audience content_type word_count : option string)
            (m m' : Machine) (o : outcome Dict) :
    reachable m ->
    create_content X topic audience content_type word_count m = (o, m') ->
    reachable m'.

(** [reaches m m']: some calls of [create_content], none too, lead from
    [m] to [m']. *)
Inductive reaches : Machine -> Machine -> Prop :=
| reaches_refl (m : Machine) : reaches m m
| reaches_call (X : Externals) (topic : string)
               (audience content_type word_count : option string)
               (m m1 m2 : Machine) (o : outcome Dict) :
    reaches m m1 ->
    create_content X topic audience content_type word_count m1 = (o, m2) ->
    reaches m m2.

(* ------------------------------------------------------------------ *)
(** *** The input constraints of the specification

    Section 4.1 of the specification asks for a word-count range of the
    form low-high with low < high and for a topic, audience and content
    type that are not empty after trimming.  The source has no counterpart;
    the definition follows the specification's words and is used to state
    what the source does on such inputs. *)

Definition is_space (c : ascii) : bool :=
  existsb (Nat.eqb (nat_of_ascii c)) [32; 9; 10; 11; 12; 13].

Fixpoint blank (s : string) : bool :=
  match s with
  | EmptyString => true
  | String c s' => andb (is_space c) (blank s')
  end.

Fixpoint digits_value (acc : N) (s : string) : N :=
  match s with
  | EmptyString => acc
  | String c s' => digits_value (acc * 10 + (N.of_nat (nat_of_ascii c) - 48))%N s'
  end.

Definition number (s : string) : option N :=
  match s with
  | EmptyString => None
  | _ => if all_digits s then Some (digits_value 0%N s) else None
  end.

(** The text before and after the first ["-"]. *)
Fixpoint split_dash (s : string) : option (string * string) :=
  match s with
  | EmptyString => None
  | String "-" s' => Some (EmptyString, s')
  | String c s' =>
      match split_dash s' with
      | Some (low, high) => Some (String c low, high)
      | None => None
      end
  end.

Definition well_formed_range (s : string) : bool :=
  match split_dash s with
  | Some (low, high) =>
      match number low, number high with
      | Some l, Some h => N.ltb l h
      | _, _ => false
      end
  | None => false
  end.

Definition valid_parameters (topic audience content_type word_count : string) : bool :=
  negb (blank topic) && negb (blank audience) && negb (blank content_type)
  && well_formed_range word_count.

(* ------------------------------------------------------------------ *)
(** *** Mock collaborators *)

Definition plain_query (instructions : string) : string := instructions.

Definition plain_splice (instructions : string) (snippets : list string) : string :=
  instructions ++ nl ++ String.concat nl snippets.

Definition plain_context (description output : string) : string :=
  description ++ nl ++ output.

(** Every call succeeds; the completion service answers with the number of
    the invocation. *)
Definition all_succeed : Externals :=
  {| completion := fun n _ _ _ _ => Some ("text " ++ str_of_int (Z.of_nat n));
     search := fun _ _ => Some ["snippet"];
     query_of := plain_query;
     splice := plain_splice;
     with_context := plain_context;
     extended := fun _ _ => Raised ValueError |}.

(** Every call raises. *)
Definition all_fail : Externals :=
  {| completion := fun _ _ _ _ _ => None;
     search := fun _ _ => None;
     query_of := plain_query;
     splice := plain_splice;
     with_context := plain_context;
     extended := fun _ _ => Raised ValueError |}.

(** The completion service raises on its third invocation only. *)
Definition third_completion_fails : Externals :=
  {| completion := fun n _ _ _ _ =>
       if Nat.eqb n 2 then None else Some ("text " ++ str_of_int (Z.of_nat n));
     search := fun _ _ => Some ["snippet"];
     query_of := plain_query;
     splice := plain_splice;
     with_context := plain_context;
     extended := fun _ _ => Raised ValueError |}.

(* ------------------------------------------------------------------ *)
(** *** Texts *)

Fixpoint prefix_of (p s : string) : bool :=
  match p, s with
  | EmptyString, _ => true
  | String a p', String b s' => andb (Ascii.eqb a b) (prefix_of p' s')
  | String _ _, EmptyString => false
  end.

(** [p in s] *)
Fixpoint contains (p s : string) : bool :=
  orb (prefix_of p s)
      match s with
      | EmptyString => false
      | String _ s' => contains p s'
      end.

(** A text that contains the four example parameters. *)
Definition example_payload (v : PyVal) : bool :=
  match v with
  | PStr s => contains "T" s && contains "A" s && contains "blog post" s
              && contains "800-1000" s
  | PList _ => false
  end.

(** A text without braces. *)
Definition is_brace (c : ascii) : bool := orb (Ascii.eqb c "{") (Ascii.eqb c "}").

Fixpoint no_braces (s : string) : bool :=
  match s with
  | EmptyString => true
  | String c s' => andb (negb (is_brace c)) (no_braces s')
  end.

(* ------------------------------------------------------------------ *)
(** *** Example runs *)

(** A run with a word-count range that is not a range, every call of the
    collaborators succeeding. *)
Definition malformed_range_run : outcome Dict * Machine :=
  create_content all_succeed "T" (Some "A") (Some "blog post") (Some "abc")
                 (fresh None []).

(** A run with the bounds of the range the wrong way round. *)
Definition reversed_range_run : outcome Dict * Machine :=
  create_content all_succeed "T" (Some "A") (Some "blog post") (Some "1000-800")
                 (fresh None []).

(** The run of the claims' example parameters, every call of the
    collaborators failing. *)
Definition all_fail_run : outcome Dict * Machine :=
  create_content all_fail "T" (Some "A") (Some "blog post") (Some "800-1000")
                 (fresh None []).

Definition all_succeed_run : outcome Dict * Machine :=
  create_content all_succeed "T" (Some "A") (Some "blog post") (Some "800-1000")
                 (fresh None []).

(** Two calls on one team: topic "A", then topic "B". *)
Definition first_run : outcome Dict * Machine :=
  create_content all_succeed "A" None None None (fresh None []).

Definition second_run : outcome Dict * Machine :=
  create_content all_succeed "B" None None None (snd first_run).

(** The run in which the third completion fails, after two stages. *)
Definition third_fails_run : outcome Dict * Machine :=
  create_content third_completion_fails "T" (Some "A") (Some "blog post")
                 (Some "800-1000") (fresh (Some "key") []).

(* ================================================================== *)
(** ** The generated-content page (simple_streamlit_app.py, [main])

    The block of [main] under [if submitted:].  The page is the list of the
    calls made to the page library, in order; a [with col:] block is the
    number of its column.  The rest of [main] (header, sidebar, form and
    footer) is drawn whatever the form holds and is left out. *)

Inductive MetricValue : Type :=
| MStr (s : string)
| MInt (z : Z).

Inductive Widget : Type :=
| st_error (body : string)
| st_success (body : string)
| st_warning (body : string)
| st_info (body : string)
| st_markdown (body : string)
| st_subheader (body : string)
| st_spinner (text : string)
| st_columns (n : nat)
| st_metric (column : nat) (label : string) (value : MetricValue)
| st_download_button (label data file_name mime : string)
| st_progress (value : nat)
| st_empty
| progress_bar_progress (value : nat)
| status_text_text (body : string).

Definition Page : Type := list Widget.

(** [re.sub(r'<[^>]+>', '', s)]: every leftmost match is removed, a match
    being a [<], at least one character that is not [>], and the next [>].
    A [<] that is followed at once by [>], or by no [>] at all, opens no
    match and stays. *)
Fixpoint has_gt (s : string) : bool :=
  match s with
  | EmptyString => false
  | String c rest => orb (Ascii.eqb c ">") (has_gt rest)
  end.

(** [rest] is the text after a [<]. *)
Definition opens_tag (rest : string) : bool :=
  match rest with
  | EmptyString => false
  | String c _ => andb (negb (Ascii.eqb c ">")) (has_gt rest)
  end.

Inductive tag_scan : Type :=
| OutsideTag
| InsideTag.

Fixpoint strip_scan (st : tag_scan) (s : string) : string :=
  match s with
  | EmptyString => EmptyString
  | String c rest =>
      match st with
      | OutsideTag =>
          if andb (Ascii.eqb c "<") (opens_tag rest)
          then strip_scan InsideTag rest
          else String c (strip_scan OutsideTag rest)
      | InsideTag =>
          if Ascii.eqb c ">" then strip_scan OutsideTag rest
          else strip_scan InsideTag rest
      end
  end.

Definition strip_tags (s : string) : string := strip_scan OutsideTag s.






(** A value of [os.getenv] in a condition: [None] and the empty string are
    false. *)
Definition truthy (v : option string) : bool :=
  match v with
  | Some (String _ _) => true
  | _ => false
  end.

(** [result.get("status") == "success"] *)
Definition status_is_success (result : Dict) : bool :=
  match dict_get "status" result with
  | Some (PStr s) => String.eqb s "success"
  | _ => false
  end.

(** The calls of [show_simulation_content]. *)
Definition simulation_page (topic audience content_type : string) (word_count : Z)
           (stamp : string) : Page :=
  let view := show_simulation_content topic audience content_type word_count stamp in
  [ st_markdown "### 📋 Simulation Mode";
    st_info "Content created in simulation mode (APIs may be overloaded)";
    st_markdown (shown view);
    st_download_button "📥 Download Simulated Content"
                       (data (download view)) (file_name (download view)) "text/plain" ].

(** The page and the call log after the form was submitted.
    - [google_api] and [serper_api] are the two [os.getenv] values; the team
      is constructed from the same environment.
    - [str_of_exn] is Python's [str] on an exception.
    - [stamp] is [datetime.now().strftime('%Y%m%d_%H%M%S')].
    When the status is success, [result] holds what [crew.kickoff()]
    returned, stored by [create_content] as it is: an object of the agent
    framework, not a text.  The tests that [main] makes on it and what the
    page library does when it is given for download belong to the framework
    and to the page library; the page of that branch is not modelled:
    [None]. *)
Definition main_submitted (X : Externals) (str_of_exn : exn -> string)
           (google_api serper_api : option string)
           (topic audience content_type : string) (word_count : Z)
           (stamp : string) (l : list Call) : option (Page * list Call) :=
  if orb (negb (truthy google_api)) (negb (truthy serper_api)) then
    Some ([st_error "❌ API keys not configured. Please check your .env file."], l)
  else
    let spinner := st_spinner "🤖 AI agents are working..." in
    match create_content X topic (Some audience) (Some content_type)
                         (Some (word_count_range word_count)) (fresh google_api l) with
    | (Returned result, m') =>
        if status_is_success result then None
        else
          Some ((spinner :: st_warning "⚠️ Content created in simulation mode"
                 :: simulation_page topic audience content_type word_count stamp)%list,
                log m')
    | (Raised e, m') =>
        Some (([ spinner;
                 st_error ("❌ Error: " ++ str_of_exn e);
                 st_info "💡 The system will fall back to simulation mode if APIs are overloaded." ]
               ++ simulation_page topic audience content_type word_count stamp)%list,
              log m')
    end.

(* ================================================================== *)
(** ** The pages of new_streamlit_app.py

    [show_simulation_mode], [display_results], [test_system] and the block
    of [main] under [if submitted:].  [st_progress] and [st_empty] are the
    calls that make the progress bar and the status line;
    [progress_bar_progress] and [status_text_text] are the updates of the
    two. *)

(** The placeholder document of [show_simulation_mode]. *)
Definition simulation_mode_content (topic audience content_type : string)
           (word_count : Z) : string :=
  nl ++
  "# " ++ topic ++ nl ++
  nl ++
  "## Introduction" ++ nl ++
  nl ++
  "This is a simulated content piece about " ++ topic ++ ", designed for " ++ audience ++ ". " ++ nl ++
  "The content would be structured as a " ++ content_type ++ " with approximately " ++ str_of_int word_count ++ " words." ++ nl ++
  nl ++
  "## Key Points" ++ nl ++
  nl ++
  "- **Point 1**: AI is transforming healthcare through advanced diagnostics" ++ nl ++
  "- **Point 2**: Personalized treatment plans are becoming more accessible" ++ nl ++
  "- **Point 3**: Remote monitoring and telemedicine are expanding care access" ++ nl ++
  "- **Point 4**: Data-driven insights are improving patient outcomes" ++ nl ++
  nl ++
  "## Conclusion" ++ nl ++
  nl ++
  "The future of healthcare is being shaped by artificial intelligence, offering " ++ nl ++
  "unprecedented opportunities for " ++ audience ++ " to improve patient care and outcomes." ++ nl ++
  nl ++
  "---" ++ nl ++
  nl ++
  "*This is simulated content. For real content generation, ensure your API keys are properly configured.*" ++ nl ++
  "    ".

Definition show_simulation_mode (topic audience content_type : string)
           (word_count : Z) (stamp : string) : Page :=
  let simulated_content := simulation_mode_content topic audience content_type word_count in
  [ st_markdown "### 📋 Content Simulation";
    st_info "Content created in simulation mode (APIs may be overloaded)";
    st_markdown "**Workflow:**";
    st_markdown
      (lines
         [ "";
           "    • **Writer Agent** creates content (Gemini 2.5 Flash + Serper)";
           "    • **Editor Agent** reviews and improves (Gemini 2.5 Flash)";
           "    • **SEO Agent** optimizes for search engines (Gemini 2.5 Flash + Serper)";
           "    " ]);
    st_markdown "**Content Metadata:**";
    st_columns 4;
    st_metric 1 "Topic" (MStr topic);
    st_metric 2 "Audience" (MStr audience);
    st_metric 3 "Type" (MStr content_type);
    st_metric 4 "Word Count" (MInt word_count);
    st_markdown "### 📄 Simulated Content";
    st_markdown simulated_content;
    st_download_button "📥 Download Simulated Content" simulated_content
                       ("simulated_content_" ++ stamp ++ ".txt") "text/plain" ].

(** [display_results(result, topic, audience, content_type, word_count)].
    A [result] entry that is a list is handed to the page library and to
    [str] as it is; that is not modelled: [None]. *)
Definition display_results (result : Dict) (topic audience content_type : string)
           (word_count : Z) (stamp : string) : option Page :=
  if status_is_success result then
    match dict_get "result" result with
    | Some (PList _) => None
    | shown_result =>
        let shown_text :=
          match shown_result with
          | Some (PStr s) => s
          | _ => "No content generated"
          end in
        let content_text :=
          match shown_result with
          | Some (PStr s) => s
          | _ => ""
          end in
        Some [ st_success "🎉 Content created successfully!";
               st_columns 4;
               st_metric 1 "Topic" (MStr topic);
               st_metric 2 "Audience" (MStr audience);
               st_metric 3 "Type" (MStr content_type);
               st_metric 4 "Word Count" (MInt word_count);
               st_subheader "📄 Generated Content";
               st_markdown shown_text;
               st_download_button "📥 Download Content" content_text
                                  ("content_" ++ stamp ++ ".txt") "text/plain" ]
    end
  else
    Some (st_warning "⚠️ Content created in simulation mode"
          :: show_simulation_mode topic audience content_type word_count stamp)%list.

(** The block of [main] under [if submitted:]; the arguments are those of
    [main_submitted]. *)
Definition new_main_submitted (X : Externals) (str_of_exn : exn -> string)
           (google_api serper_api : option string)
           (topic audience content_type : string) (word_count : Z)
           (stamp : string) (l : list Call) : option (Page * list Call) :=
  if orb (negb (truthy google_api)) (negb (truthy serper_api)) then
    Some ([st_error "❌ API keys not configured. Please check your .env file."], l)
  else
    let before_run :=
      [ st_progress 0; st_empty;
        status_text_text "🤖 Initializing AI agents..."; progress_bar_progress 10;
        status_text_text "📝 Creating content..."; progress_bar_progress 30 ] in
    match create_content X topic (Some audience) (Some content_type)
                         (Some (word_count_range word_count)) (fresh google_api l) with
    | (Returned result, m') =>
        match display_results result topic audience content_type word_count stamp with
        | Some shown_results =>
            Some ((before_run
                   ++ [ progress_bar_progress 80; status_text_text "✨ Finalizing content..." ]
                   ++ shown_results
                   ++ [ progress_bar_progress 100;
                        status_text_text "✅ Content generation complete!" ])%list,
                  log m')
        | None => None
        end
    | (Raised e, m') =>
        Some ((before_run
               ++ [ st_error ("❌ Error: " ++ str_of_exn e);
                    st_info "💡 The system will fall back to simulation mode if APIs are overloaded." ]
               ++ show_simulation_mode topic audience content_type word_count stamp)%list,
              log m')
    end.

(** [test_system()]; [key] is [os.environ.get("GOOGLE_API_KEY")]. *)
Definition test_system (X : Externals) (str_of_exn : exn -> string)
           (key : option string) (l : list Call) : Page * list Call :=
  let spinner := st_spinner "Testing system..." in
  match create_content X "Test Topic" (Some "test audience") (Some "blog post")
                       (Some "500-600") (fresh key l) with
  | (Returned result, m') =>
      if status_is_success result
      then ([spinner; st_success "✅ System test successful!"], log m')
      else ([spinner; st_warning "⚠️ System test completed in simulation mode"], log m')
  | (Raised e, m') =>
      ([spinner; st_error ("❌ System test failed: " ++ str_of_exn e)], log m')
  end.

(** Two calls on a team made with a key. *)
Definition keyed_first_run : outcome Dict * Machine :=
  create_content all_succeed "A" None None None (fresh (Some "secret") []).

Definition keyed_second_run : outcome Dict * Machine :=
  create_content all_fail "B" (Some "C") None None (snd keyed_first_run).

(* ================================================================== *)
(** * Properties *)

(** ** The shape of a call of [create_content] *)

(** On a fresh team the description is the template, and formatting it
    fills in the four fields whatever they are. *)
Lemma format_template (ext : Extended) (topic audience content_type word_count : string) :
  py_format ext writing_template (kwargs_of topic audience content_type word_count)
  = Returned (writing_instructions topic audience content_type word_count).
Proof. reflexivity. Qed.

(** The three ways a call can go: [format] raises and nothing else happens;
    the crew's run returns; the crew's run raises. *)
Lemma create_content_cases (X : Externals) (topic : string)
      (audience content_type word_count : option string) (m : Machine) :
  let a := with_default "general audience" audience in
  let c := with_default "blog post" content_type in
  let w := with_default "800-1000" word_count in
  create_content X topic audience content_type word_count m =
  match py_format (extended X) (description (writing_task (team m)))
                  (kwargs_of topic a c w) with
  | Raised e => (Raised e, m)
  | Returned d =>
      match kickoff X (described d m) with
      | (Returned result, m') => (Returned (success_result result topic a c w), m')
      | (Raised _, m') => (Returned (simulation_result topic a c w), m')
      end
  end.
Proof.
  intros a c w.
  unfold create_content, bind, lift, get_self, update_self, try_except, ret.
  fold a c w.
  destruct (py_format _ _ _) as [d | e]; [ | reflexivity ].
  change {| team := set_writing_description d (team m); log := log m |}
    with (described d m).
  destruct (kickoff X (described d m)) as [[result | e] m']; reflexivity.
Qed.

(** ** What a run of the crew does to the machine *)

Section CrewRun.

Variable X : Externals.

Lemma invoke_search_run (stage query : string) (m : Machine) :
  let reply := search X (count_calls is_search (log m)) query in
  invoke_search X stage query m =
  (match reply with Some snippets => Returned snippets | None => Raised SearchError end,
   {| team := team m; log := (log m ++ [SearchCall stage query reply])%list |}).
Proof.
  intros reply. unfold invoke_search, bind, get_log, record, ret, raise.
  cbn. fold reply. destruct reply; reflexivity.
Qed.

Lemma invoke_completion_run (a : Agent) (instructions : string)
      (m : Machine) :
  let reply := completion X (count_calls is_completion (log m))
                          (role a) (goal a) (backstory a) instructions in
  invoke_completion X a instructions m =
  (match reply with Some text => Returned text | None => Raised CompletionError end,
   {| team := team m;
      log := (log m ++ [CompletionCall (role a) (goal a) (backstory a) instructions reply])%list |}).
Proof.
  intros reply. unfold invoke_completion, bind, get_log, record, ret, raise.
  cbn. fold reply. destruct reply; reflexivity.
Qed.

Lemma issued_by_cons (t : Task) (ts : list Task) (c : Call) :
  issued_by ts c -> issued_by (t :: ts) c.
Proof. intros [t' [Hin H]]. exists t'. split; [ right; exact Hin | exact H ]. Qed.

Lemma run_stage_frame (t : Task) (previous : option string)
      (m m' : Machine) (o : outcome string) :
  run_stage X t previous m = (o, m') ->
  team m' = team m /\
  exists new, log m' = (log m ++ new)%list /\ Forall (issued_by [t]) new.
Proof.
  unfold run_stage, bind.
  destruct (uses_search (agent t)) eqn:Huses.
  - rewrite invoke_search_run.
    destruct (search X _ _) as [snippets | ]; cbv beta iota delta [ret].
    + rewrite invoke_completion_run. cbn. intros H. inversion H; subst; clear H. cbn.
      split; [ reflexivity | ].
      eexists. split; [ rewrite <- app_assoc; reflexivity | ].
      repeat constructor; exists t; cbn; auto.
    + intros H. inversion H; subst; clear H. cbn.
      split; [ reflexivity | ].
      eexists. split; [ reflexivity | ].
      repeat constructor; exists t; cbn; auto.
  - unfold ret. rewrite invoke_completion_run. intros H. inversion H; subst; clear H. cbn.
    split; [ reflexivity | ].
    eexists. split; [ reflexivity | ].
    repeat constructor; exists t; cbn; auto.
Qed.

Lemma run_stages_frame (ts : list Task) :
  forall (previous : option string) (m m' : Machine) (o : outcome string),
    run_stages X ts previous m = (o, m') ->
    team m' = team m /\
    exists new, log m' = (log m ++ new)%list /\ Forall (issued_by ts) new.
Proof.
  induction ts as [ | t ts IH]; intros previous m m' o.
  - cbn. unfold ret. intros H. inversion H; subst; clear H.
    split; [ reflexivity | ]. exists []. rewrite app_nil_r. split; constructor.
  - cbn. unfold bind.
    destruct (run_stage X t previous m) as [[output | e] m1] eqn:Hstage.
    + intros Hrest.
      apply run_stage_frame in Hstage. destruct Hstage as [Hteam1 [new1 [Hlog1 Hby1]]].
      apply IH in Hrest. destruct Hrest as [Hteam2 [new2 [Hlog2 Hby2]]].
      split; [ congruence | ].
      exists (new1 ++ new2)%list. split.
      * rewrite Hlog2, Hlog1, app_assoc. reflexivity.
      * apply Forall_app. split.
        -- eapply Forall_impl; [ | exact Hby1 ].
           intros c [t' [[Ht | []] H]]. subst t'. exists t. split; [ left; reflexivity | exact H ].
        -- eapply Forall_impl; [ | exact Hby2 ]. intros c. apply issued_by_cons.
    + intros H. inversion H; subst; clear H.
      apply run_stage_frame in Hstage. destruct Hstage as [Hteam1 [new1 [Hlog1 Hby1]]].
      split; [ exact Hteam1 | ].
      exists new1. split; [ exact Hlog1 | ].
      eapply Forall_impl; [ | exact Hby1 ].
      intros c [t' [[Ht | []] H0]]. subst t'. exists t. split; [ left; reflexivity | exact H0 ].
Qed.

Lemma kickoff_frame (m m' : Machine) (o : outcome string) :
  kickoff X m = (o, m') ->
  team m' = team m /\
  exists new, log m' = (log m ++ new)%list /\
              Forall (issued_by (map (deref (team m)) (tasks (crew (team m))))) new.
Proof.
  unfold kickoff, bind, get_self. apply run_stages_frame.
Qed.

(** ** The crew's run on a constructed team *)

(** A stage that has the search tool and whose search raises. *)
Lemma run_stage_search_fails (t : Task) (previous : option string)
      (m : Machine) :
  uses_search (agent t) = true ->
  let q := query_of X (stage_instructions X t previous) in
  search X (count_calls is_search (log m)) q = None ->
  run_stage X t previous m =
  (Raised SearchError,
   {| team := team m;
      log := (log m ++ [SearchCall (role (agent t)) q None])%list |}).
Proof.
  intros Huses q Hreply. unfold run_stage, bind. rewrite Huses.
  fold (stage_instructions X t previous). fold q.
  rewrite invoke_search_run. cbv zeta. rewrite Hreply. reflexivity.
Qed.

(** A stage that has the search tool and whose search returns. *)
Lemma run_stage_search_returns (t : Task) (previous : option string)
      (m : Machine) (snippets : list string) :
  uses_search (agent t) = true ->
  let q := query_of X (stage_instructions X t previous) in
  search X (count_calls is_search (log m)) q = Some snippets ->
  let a := agent t in
  let i := splice X (stage_instructions X t previous) snippets in
  let reply := completion X (count_calls is_completion (log m))
                          (role a) (goal a) (backstory a) i in
  run_stage X t previous m =
  (match reply with Some text => Returned text | None => Raised CompletionError end,
   {| team := team m;
      log := (log m ++ [ SearchCall (role a) q (Some snippets);
                         CompletionCall (role a) (goal a) (backstory a) i reply ])%list |}).
Proof.
  intros Huses q Hreply a i reply. unfold run_stage, bind. rewrite Huses.
  fold (stage_instructions X t previous). fold q. fold a.
  rewrite invoke_search_run. cbv zeta. rewrite Hreply.
  cbv beta iota delta [ret]. fold i.
  rewrite invoke_completion_run. cbv zeta. cbn [log team].
  assert (Hcount : count_calls is_completion
                     (log m ++ [SearchCall (role a) q (Some snippets)])
                   = count_calls is_completion (log m)).
  { unfold count_calls. rewrite filter_app. cbn. rewrite app_nil_r. reflexivity. }
  rewrite Hcount. fold reply.
  rewrite <- app_assoc. reflexivity.
Qed.

(** A stage without the search tool. *)
Lemma run_stage_plain (t : Task) (previous : option string)
      (m : Machine) :
  uses_search (agent t) = false ->
  let a := agent t in
  let i := stage_instructions X t previous in
  let reply := completion X (count_calls is_completion (log m))
                          (role a) (goal a) (backstory a) i in
  run_stage X t previous m =
  (match reply with Some text => Returned text | None => Raised CompletionError end,
   {| team := team m;
      log := (log m ++ [CompletionCall (role a) (goal a) (backstory a) i reply])%list |}).
Proof.
  intros Huses a i reply. unfold run_stage, bind. rewrite Huses.
  fold (stage_instructions X t previous). fold a. fold i.
  cbv beta iota delta [ret]. rewrite invoke_completion_run. reflexivity.
Qed.

Lemma constructed_tasks (key : option string) (d : string) :
  map (deref (constructed key d)) (tasks (crew (constructed key d)))
  = [ writer_task key d;
      new_editing_task (new_editor_agent (gemini key));
      new_seo_task (new_seo_agent (gemini key)) ].
Proof. reflexivity. Qed.

Lemma fresh_described (key : option string) (l : list Call) (d : string) :
  described d (fresh key l) = {| team := constructed key d; log := l |}.
Proof. reflexivity. Qed.

Lemma run_stages_cons (t : Task) (ts : list Task)
      (previous : option string) (m : Machine) :
  run_stages X (t :: ts) previous m =
  match run_stage X t previous m with
  | (Returned output, m1) => run_stages X ts (Some output) m1
  | (Raised e, m1) => (Raised e, m1)
  end.
Proof. reflexivity. Qed.

Lemma kickoff_constructed (key : option string) (d : string)
      (l : list Call) :
  kickoff X {| team := constructed key d; log := l |} =
  run_stages X [ writer_task key d;
                 new_editing_task (new_editor_agent (gemini key));
                 new_seo_task (new_seo_agent (gemini key)) ]
             None {| team := constructed key d; log := l |}.
Proof. reflexivity. Qed.

Lemma kickoff_search_fails (key : option string) (d : string)
      (l : list Call) :
  search X (count_calls is_search l) (query_of X d) = None ->
  kickoff X {| team := constructed key d; log := l |} =
  (Raised SearchError,
   {| team := constructed key d;
      log := (l ++ [SearchCall "Content Writer" (query_of X d) None])%list |}).
Proof.
  intros Hs. rewrite kickoff_constructed, run_stages_cons.
  rewrite (run_stage_search_fails (writer_task key d) None);
    [ reflexivity | reflexivity | exact Hs ].
Qed.

Section AllCallsSucceed.

Hypothesis completion_succeeds : forall n r g b i, completion X n r g b i <> None.
Hypothesis search_succeeds : forall n q, search X n q <> None.

Ltac completion_returns text :=
  match goal with
  | |- context [match completion X ?n ?r ?g ?b ?i with Some _ => _ | None => _ end] =>
      let E := fresh "Hreply" in
      destruct (completion X n r g b i) as [text | ] eqn:E;
      [ | exfalso; exact (completion_succeeds _ _ _ _ _ E) ]
  end.

Ltac search_returns snippets :=
  match goal with
  | |- context [run_stage X ?t ?previous ?m] =>
      let E := fresh "Hfound" in
      destruct (search X (count_calls is_search (log m))
                       (query_of X (stage_instructions X t previous)))
        as [snippets | ] eqn:E;
      [ rewrite (run_stage_search_returns t previous m snippets);
        [ | reflexivity | exact E ]
      | exfalso; exact (search_succeeds _ _ E) ]
  end.

(** When no call fails the three stages run in order and the result is the
    reply to the third completion. *)
Lemma kickoff_all_succeed (key : option string) (d : string)
      (l : list Call) :
  exists text1 text2 text3 new,
    kickoff X {| team := constructed key d; log := l |} =
    (Returned text3, {| team := constructed key d; log := (l ++ new)%list |}) /\
    stages_completed new = ["Content Writer"; "Content Editor"; "SEO Specialist"] /\
    completion_replies new = [Some text1; Some text2; Some text3].
Proof.
  rewrite kickoff_constructed.
  rewrite run_stages_cons. search_returns snippets1. completion_returns text1.
  rewrite run_stages_cons. rewrite run_stage_plain; [ | reflexivity ].
  completion_returns text2.
  rewrite run_stages_cons. search_returns snippets3. completion_returns text3.
  exists text1, text2, text3. eexists. split.
  - cbn [run_stages ret team log]. unfold ret. rewrite <- !app_assoc. reflexivity.
  - split; reflexivity.
Qed.

End AllCallsSucceed.

End CrewRun.

(** ** Invariants of the reachable machines *)

(** [create_content] changes one thing in the team: the description of the
    writing task. *)
Lemma create_content_team (X : Externals) (topic : string)
      (audience content_type word_count : option string)
      (m m' : Machine) (o : outcome Dict) :
  create_content X topic audience content_type word_count m = (o, m') ->
  exists d, team m' = set_writing_description d (team m).
Proof.
  rewrite create_content_cases.
  destruct (py_format _ _ _) as [d | e].
  - destruct (kickoff X (described d m)) as [[result | e] m1] eqn:Hrun;
      intros H; inversion H; subst; clear H;
      apply kickoff_frame in Hrun; destruct Hrun as [Hteam _];
      exists d; exact Hteam.
  - intros H. inversion H; subst; clear H.
    exists (description (writing_task (team m'))).
    destruct m' as [[? ? ? ? [? ? ?] ? ? ?] ?]. reflexivity.
Qed.

Lemma reachable_team (m : Machine) :
  reachable m ->
  exists key d, team m = set_writing_description d (__init__ key).
Proof.
  induction 1 as [key | X topic audience content_type word_count m m' o Hm IH Hrun].
  - exists key, writing_template. reflexivity.
  - destruct IH as [key [d0 Hteam]].
    apply create_content_team in Hrun. destruct Hrun as [d Hteam'].
    exists key, d. rewrite Hteam', Hteam. reflexivity.
Qed.

(** A call adds to the log only calls issued by the crew's tasks. *)
Lemma create_content_log (X : Externals) (topic : string)
      (audience content_type word_count : option string)
      (m m' : Machine) (o : outcome Dict) :
  create_content X topic audience content_type word_count m = (o, m') ->
  exists d new,
    log m' = (log m ++ new)%list /\
    Forall (issued_by (map (deref (set_writing_description d (team m)))
                           (tasks (crew (team m))))) new.
Proof.
  rewrite create_content_cases.
  destruct (py_format _ _ _) as [d | e].
  - destruct (kickoff X (described d m)) as [[result | e] m1] eqn:Hrun;
      intros H; inversion H; subst; clear H;
      apply kickoff_frame in Hrun; destruct Hrun as [_ [new [Hlog Hby]]];
      exists d, new; split; assumption.
  - intros H. inversion H; subst; clear H.
    exists EmptyString, []. rewrite app_nil_r. split; constructor.
Qed.

Lemma reachable_no_editor_search (m : Machine) :
  reachable m ->
  Forall (fun c => search_by "Content Editor" c = false) (log m).
Proof.
  induction 1 as [key | X topic audience content_type word_count m m' o Hm IH Hrun].
  - constructor.
  - destruct (reachable_team m Hm) as [key [d0 Hteam]].
    apply create_content_log in Hrun. destruct Hrun as [d [new [Hlog Hby]]].
    rewrite Hlog. apply Forall_app. split; [ exact IH | ].
    eapply Forall_impl; [ | exact Hby ].
    intros c [t [Hin Hc]]. rewrite Hteam in Hin. cbn in Hin.
    destruct c as [stage query reply | stage g b i reply]; [ | reflexivity ].
    destruct Hc as [Hstage Huses].
    destruct Hin as [Ht | [Ht | [Ht | []]]]; subst t; subst stage;
      first [ discriminate Huses | reflexivity ].
Qed.

(** All or nothing: when the third completion fails, after the writer and
    the editor have completed, the result is the same simulation result. *)
Example third_completion_fails_run :
  fst third_fails_run = Returned (simulation_result "T" "A" "blog post" "800-1000") /\
  stages_completed (log (snd third_fails_run)) = ["Content Writer"; "Content Editor"] /\
  completion_replies (log (snd third_fails_run)) = [Some "text 0"; Some "text 1"; None].
Proof. repeat split; vm_compute; reflexivity. Qed.

(* ================================================================== *)
(** * The claims *)

(** C1.  A call of [create_content] on a freshly constructed team returns,
    for every choice of the parameters and every behaviour of the two
    collaborators, a result whose status is success or simulation.  On any
    team at all, a call either returns such a result or raises what the
    [format] of the stored description raised, before the crew is started
    and with the machine unchanged: a failure of a collaborator is never
    propagated. *)
Theorem C1_status_success_or_simulation :
  (forall (X : Externals) (key : option string) (l : list Call) (topic : string)
          (audience content_type word_count : option string),
      exists r m',
        create_content X topic audience content_type word_count (fresh key l)
        = (Returned r, m')
        /\ success_or_simulation r)
  /\
  (forall (X : Externals) (m : Machine) (topic : string)
          (audience content_type word_count : option string),
      (exists r m',
          create_content X topic audience content_type word_count m = (Returned r, m')
          /\ success_or_simulation r)
      \/
      (exists e,
          py_format (extended X) (description (writing_task (team m)))
                    (kwargs_of topic
                               (with_default "general audience" audience)
                               (with_default "blog post" content_type)
                               (with_default "800-1000" word_count))
          = Raised e
          /\ create_content X topic audience content_type word_count m = (Raised e, m))).
Proof.
  split.
  - intros X key l topic audience content_type word_count.
    rewrite create_content_cases. cbn [fresh team]. 
    change (description (writing_task (__init__ key))) with writing_template.
    rewrite format_template.
    destruct (kickoff X _) as [[result | e] m'];
      eexists; eexists; (split; [ reflexivity | ]).
    + left. reflexivity.
    + right. reflexivity.
  - intros X m topic audience content_type word_count.
    rewrite create_content_cases.
    destruct (py_format _ _ _) as [d | e].
    + left. destruct (kickoff X _) as [[result | e] m'];
        eexists; eexists; (split; [ reflexivity | ]).
      * left. reflexivity.
      * right. reflexivity.
    + right. exists e. split; reflexivity.
Qed.

(* ------------------------------------------------------------------ *)

(** C2, as stated, fails: with the word-count range "abc", which the
    specification's constraints reject, the call raises nothing; it returns
    a success result that carries the range as it was given.  The same
    happens with "1000-800". *)
Lemma C2_counterexample :
  valid_parameters "T" "A" "blog post" "abc" = false /\
  (exists text,
      fst malformed_range_run = Returned (success_result text "T" "A" "blog post" "abc")) /\
  ~ (exists e, fst malformed_range_run = Raised e) /\
  valid_parameters "T" "A" "blog post" "1000-800" = false /\
  (exists text,
      fst reversed_range_run
      = Returned (success_result text "T" "A" "blog post" "1000-800")) /\
  ~ (exists e, fst reversed_range_run = Raised e).
Proof.
  split; [ reflexivity | ].
  split; [ eexists; vm_compute; reflexivity | ].
  split; [ intros [e He]; vm_compute in He; discriminate He | ].
  split; [ reflexivity | ].
  split; [ eexists; vm_compute; reflexivity | ].
  intros [e He]. vm_compute in He. discriminate He.
Qed.

(** C2, amended.  [create_content] does not validate its parameters: for
    parameters that the specification's constraints reject (a word-count
    range not of the form low-high with low < high, or a blank topic,
    audience or content type) a call on a fresh team raises nothing; it
    fills the template with the values as they are, starts the crew's run
    on it, and returns a result whose status is success or simulation and
    which carries the values as they were given. *)
Theorem C2_no_validation
        (X : Externals) (key : option string) (l : list Call)
        (topic audience content_type word_count : string) :
  valid_parameters topic audience content_type word_count = false ->
  exists r m' o,
    create_content X topic (Some audience) (Some content_type) (Some word_count)
                   (fresh key l)
    = (Returned r, m')
    /\ success_or_simulation r
    /\ kickoff X {| team := constructed key
                              (writing_instructions topic audience content_type
                                                    word_count);
                    log := l |}
       = (o, m')
    /\ dict_get "topic" r = Some (PStr topic)
    /\ dict_get "audience" r = Some (PStr audience)
    /\ dict_get "content_type" r = Some (PStr content_type)
    /\ dict_get "word_count" r = Some (PStr word_count).
Proof.
  intros _. rewrite create_content_cases. cbn [fresh team with_default].
  change (description (writing_task (__init__ key))) with writing_template.
  rewrite format_template.
  rewrite fresh_described.
  destruct (kickoff X _) as [[result | e] m'] eqn:Hrun;
    eexists; exists m'; eexists; (split; [ reflexivity | ]);
    (split; [ | split; [ reflexivity | repeat split ] ]).
  - left. reflexivity.
  - right. reflexivity.
Qed.

Lemma C2_no_validation_witness :
  valid_parameters "T" "A" "blog post" "abc" = false /\
  exists r m' o,
    create_content all_succeed "T" (Some "A") (Some "blog post") (Some "abc")
                   (fresh None [])
    = (Returned r, m')
    /\ success_or_simulation r
    /\ kickoff all_succeed
               {| team := constructed None
                            (writing_instructions "T" "A" "blog post" "abc");
                  log := [] |}
       = (o, m')
    /\ dict_get "topic" r = Some (PStr "T")
    /\ dict_get "audience" r = Some (PStr "A")
    /\ dict_get "content_type" r = Some (PStr "blog post")
    /\ dict_get "word_count" r = Some (PStr "abc").
Proof.
  split; [ reflexivity | ].
  apply (C2_no_validation all_succeed None [] "T" "A" "blog post" "abc").
  reflexivity.
Defined.

(* ------------------------------------------------------------------ *)

(** C3, as stated, fails: the result built on the failure path names both
    services under [apis_used], and its [workflow] lists three steps. *)
Lemma C3_counterexample :
  fst all_fail_run = Returned (simulation_result "T" "A" "blog post" "800-1000") /\
  dict_get "apis_used" (simulation_result "T" "A" "blog post" "800-1000")
  = Some (PList ["Gemini 2.5 Flash API"; "Serper API"]) /\
  dict_get "apis_used" (simulation_result "T" "A" "blog post" "800-1000")
  <> Some (PList []).
Proof.
  repeat split; try (vm_compute; reflexivity).
  intros H. vm_compute in H. discriminate H.
Qed.

(** C3, amended.  For every choice of the parameters, when the crew's run
    raises, the call returns the simulation result: its status is
    simulation, its [workflow] is the fixed list of the three steps (it has
    no list of the stages that ran), and its [apis_used] names both
    services, as on the success path.  The machine is left as the crew's run
    left it. *)
Theorem C3_failure_path_result
        (X : Externals) (m m' : Machine) (topic audience content_type word_count d : string)
        (e : exn) :
  py_format (extended X) (description (writing_task (team m)))
            (kwargs_of topic audience content_type word_count) = Returned d ->
  kickoff X (described d m) = (Raised e, m') ->
  exists r,
    create_content X topic (Some audience) (Some content_type) (Some word_count) m
    = (Returned r, m')
    /\ r = simulation_result topic audience content_type word_count
    /\ status_of r = Some (PStr "simulation")
    /\ dict_get "workflow" r
       = Some (PList [ "Writer Agent creates content (Gemini 2.5 Flash + Serper)";
                       "Editor Agent reviews and improves (Gemini 2.5 Flash)";
                       "SEO Agent optimizes for search engines (Gemini 2.5 Flash + Serper)" ])
    /\ dict_get "apis_used" r = Some (PList ["Gemini 2.5 Flash API"; "Serper API"])
    /\ dict_get "apis_used" r = dict_get "apis_used" (success_result "" topic audience content_type word_count).
Proof.
  intros Hformat Hrun. rewrite create_content_cases. cbn [with_default].
  rewrite Hformat, Hrun.
  eexists. split; [ reflexivity | ]. repeat split.
Qed.

Lemma C3_failure_path_result_witness :
  py_format (extended all_fail) (description (writing_task (team (fresh None []))))
            (kwargs_of "T" "A" "blog post" "800-1000")
  = Returned (writing_instructions "T" "A" "blog post" "800-1000") /\
  kickoff all_fail (described (writing_instructions "T" "A" "blog post" "800-1000")
                              (fresh None []))
  = (Raised SearchError, snd all_fail_run) /\
  exists r,
    create_content all_fail "T" (Some "A") (Some "blog post") (Some "800-1000")
                   (fresh None [])
    = (Returned r, snd all_fail_run)
    /\ r = simulation_result "T" "A" "blog post" "800-1000"
    /\ status_of r = Some (PStr "simulation")
    /\ dict_get "workflow" r
       = Some (PList [ "Writer Agent creates content (Gemini 2.5 Flash + Serper)";
                       "Editor Agent reviews and improves (Gemini 2.5 Flash)";
                       "SEO Agent optimizes for search engines (Gemini 2.5 Flash + Serper)" ])
    /\ dict_get "apis_used" r = Some (PList ["Gemini 2.5 Flash API"; "Serper API"])
    /\ dict_get "apis_used" r = dict_get "apis_used" (success_result "" "T" "A" "blog post" "800-1000").
Proof.
  split; [ reflexivity | ]. split; [ vm_compute; reflexivity | ].
  apply (C3_failure_path_result all_fail (fresh None []) (snd all_fail_run)
           "T" "A" "blog post" "800-1000"
           (writing_instructions "T" "A" "blog post" "800-1000") SearchError).
  - reflexivity.
  - vm_compute; reflexivity.
Defined.

(* ------------------------------------------------------------------ *)

(** C4, as stated, fails: the result of a run in which every call succeeds
    has no entry that lists the stages; its one entry that is a list is
    [apis_used], and its entries are the eight of the literal. *)
Lemma C4_counterexample :
  exists text,
    fst all_succeed_run = Returned (success_result text "T" "A" "blog post" "800-1000")
    /\ map fst (success_result text "T" "A" "blog post" "800-1000")
       = [ "status"; "message"; "result"; "apis_used";
           "topic"; "audience"; "content_type"; "word_count" ]
    /\ list_entries (success_result text "T" "A" "blog post" "800-1000")
       = [("apis_used", ["Gemini 2.5 Flash API"; "Serper API"])].
Proof. eexists. repeat split; vm_compute; reflexivity. Qed.

(** C4, amended.  If no invocation of the completion service and of the
    search tool fails, a call on a fresh team returns a result with status
    success whose text is the reply to the third invocation of the
    completion service made by the call; the stages that complete during
    the call are the writer, the editor and the SEO specialist, in that
    order, but the result does not list them: its one entry that is a list
    is [apis_used]. *)
Theorem C4_success_path
        (X : Externals) (key : option string) (l : list Call) (topic : string)
        (audience content_type word_count : option string) :
  (forall n r g b i, completion X n r g b i <> None) ->
  (forall n q, search X n q <> None) ->
  exists r m' new text,
    create_content X topic audience content_type word_count (fresh key l)
    = (Returned r, m')
    /\ log m' = (l ++ new)%list
    /\ status_of r = Some (PStr "success")
    /\ stages_completed new = ["Content Writer"; "Content Editor"; "SEO Specialist"]
    /\ List.length (completion_replies new) = 3
    /\ nth_error (completion_replies new) 2 = Some (Some text)
    /\ dict_get "result" r = Some (PStr text)
    /\ list_entries r = [("apis_used", ["Gemini 2.5 Flash API"; "Serper API"])].
Proof.
  intros Hc Hs. rewrite create_content_cases. cbn [fresh team].
  change (description (writing_task (__init__ key))) with writing_template.
  rewrite format_template.
  rewrite fresh_described.
  destruct (kickoff_all_succeed X Hc Hs key
              (writing_instructions topic
                 (with_default "general audience" audience)
                 (with_default "blog post" content_type)
                 (with_default "800-1000" word_count)) l)
    as [text1 [text2 [text3 [new [Hrun [Hstages Hreplies]]]]]].
  rewrite Hrun. eexists. eexists. exists new, text3.
  split; [ reflexivity | ]. cbn [log].
  split; [ reflexivity | ].
  split; [ reflexivity | ].
  split; [ exact Hstages | ].
  rewrite Hreplies. repeat split.
Qed.

Lemma C4_success_path_witness :
  (forall n r g b i, completion all_succeed n r g b i <> None) /\
  (forall n q, search all_succeed n q <> None) /\
  exists r m' new text,
    create_content all_succeed "T" (Some "A") (Some "blog post") (Some "800-1000")
                   (fresh None [])
    = (Returned r, m')
    /\ log m' = ([] ++ new)%list
    /\ status_of r = Some (PStr "success")
    /\ stages_completed new = ["Content Writer"; "Content Editor"; "SEO Specialist"]
    /\ List.length (completion_replies new) = 3
    /\ nth_error (completion_replies new) 2 = Some (Some text)
    /\ dict_get "result" r = Some (PStr text)
    /\ list_entries r = [("apis_used", ["Gemini 2.5 Flash API"; "Serper API"])].
Proof.
  split; [ intros n r g b i; discriminate | ].
  split; [ intros n q; discriminate | ].
  apply (C4_success_path all_succeed None [] "T"
           (Some "A") (Some "blog post") (Some "800-1000")).
  - intros n r g b i; discriminate.
  - intros n q; discriminate.
Defined.

(* ------------------------------------------------------------------ *)

(** C5, as stated, fails: with the example parameters and every call of the
    collaborators failing the call returns the simulation result, which has
    no [result] entry, and none of its entries is a text that contains the
    four parameters. *)
Lemma C5_counterexample :
  fst all_fail_run = Returned (simulation_result "T" "A" "blog post" "800-1000") /\
  dict_get "result" (simulation_result "T" "A" "blog post" "800-1000") = None /\
  existsb (fun entry => example_payload (snd entry))
          (simulation_result "T" "A" "blog post" "800-1000") = false.
Proof. repeat split; vm_compute; reflexivity. Qed.

(** C5, amended.  For the parameters topic "T", audience "A", content type
    "blog post" and word count "800-1000", when every call of the
    collaborators fails, a call on a fresh team returns a result with status
    simulation, no stage having completed, in which the four values are the
    entries [topic], [audience], [content_type] and [word_count]; the result
    has no text of its own (no [result] entry). *)
Theorem C5_all_calls_fail
        (X : Externals) (key : option string) (l : list Call) :
  (forall n r g b i, completion X n r g b i = None) ->
  (forall n q, search X n q = None) ->
  exists r m' new,
    create_content X "T" (Some "A") (Some "blog post") (Some "800-1000") (fresh key l)
    = (Returned r, m')
    /\ log m' = (l ++ new)%list
    /\ status_of r = Some (PStr "simulation")
    /\ stages_completed new = []
    /\ dict_get "topic" r = Some (PStr "T")
    /\ dict_get "audience" r = Some (PStr "A")
    /\ dict_get "content_type" r = Some (PStr "blog post")
    /\ dict_get "word_count" r = Some (PStr "800-1000")
    /\ dict_get "result" r = None.
Proof.
  intros _ Hs. rewrite create_content_cases. cbn [fresh team with_default].
  change (description (writing_task (__init__ key))) with writing_template.
  rewrite format_template.
  rewrite fresh_described.
  rewrite kickoff_search_fails by apply Hs.
  eexists. eexists. eexists.
  split; [ reflexivity | ]. cbn [log].
  split; [ reflexivity | ].
  repeat split.
Qed.

Lemma C5_all_calls_fail_witness :
  (forall n r g b i, completion all_fail n r g b i = None) /\
  (forall n q, search all_fail n q = None) /\
  exists r m' new,
    create_content all_fail "T" (Some "A") (Some "blog post") (Some "800-1000")
                   (fresh None [])
    = (Returned r, m')
    /\ log m' = ([] ++ new)%list
    /\ status_of r = Some (PStr "simulation")
    /\ stages_completed new = []
    /\ dict_get "topic" r = Some (PStr "T")
    /\ dict_get "audience" r = Some (PStr "A")
    /\ dict_get "content_type" r = Some (PStr "blog post")
    /\ dict_get "word_count" r = Some (PStr "800-1000")
    /\ dict_get "result" r = None.
Proof.
  split; [ reflexivity | ]. split; [ reflexivity | ].
  apply (C5_all_calls_fail all_fail None []); reflexivity.
Defined.

(* ------------------------------------------------------------------ *)

(** C6 does not hold of the source.  The first call overwrites the stored
    description of the writing task with its rendering, so the template is
    gone; in the second call, made for topic "B", the description stays the
    rendering for topic "A", the writer's stage is run on these instructions
    (seen also in the query of its search, the sixth call in the log), and
    the result nonetheless reports topic "B". *)
Theorem C6_second_run_keeps_first_rendering :
  description (writing_task (team (fresh None []))) = writing_template /\
  description (writing_task (team (snd first_run)))
  = writing_instructions "A" "general audience" "blog post" "800-1000" /\
  description (writing_task (team (snd second_run)))
  = writing_instructions "A" "general audience" "blog post" "800-1000" /\
  stage_instructions all_succeed (deref (team (snd second_run)) WritingTask) None
  = writing_instructions "A" "general audience" "blog post" "800-1000" /\
  nth_error (log (snd second_run)) 5
  = Some (SearchCall "Content Writer"
                     (writing_instructions "A" "general audience" "blog post" "800-1000")
                     (Some ["snippet"])) /\
  fst second_run
  = Returned (success_result "text 5" "B" "general audience" "blog post" "800-1000") /\
  writing_instructions "A" "general audience" "blog post" "800-1000"
  <> writing_instructions "B" "general audience" "blog post" "800-1000".
Proof.
  repeat split; try (vm_compute; reflexivity).
  intros H. apply String.eqb_eq in H. vm_compute in H. discriminate H.
Qed.

(** The same defect, seen from the caller: after a call whose topic holds a
    replacement field, the next call raises out of [format]. *)
Example second_run_raises :
  fst (create_content all_succeed "B" None None None
         (snd (create_content all_succeed "{x}" None None None (fresh None []))))
  = Raised (KeyError "x").
Proof. vm_compute. reflexivity. Qed.

(** In general: a text without braces formats to itself, so once a call has
    stored a rendering without braces, no later call changes it. *)

Lemma no_braces_app (s1 s2 : string) :
  no_braces (s1 ++ s2) = andb (no_braces s1) (no_braces s2).
Proof.
  induction s1 as [ | c s1 IH]; cbn; [ reflexivity | ].
  rewrite IH, andb_assoc. reflexivity.
Qed.

Lemma format_no_braces (ext : Extended) (kw : Kwargs) (s : string) :
  no_braces s = true -> py_format ext s kw = Returned s.
Proof.
  unfold py_format. induction s as [ | c s IH]; [ reflexivity | ].
  cbn [no_braces]. intros H. apply andb_true_iff in H. destruct H as [Hc Hs].
  specialize (IH Hs).
  destruct c as [[] [] [] [] [] [] [] []]; try discriminate Hc;
    cbn [format_scan]; rewrite IH; reflexivity.
Qed.

Lemma writing_instructions_no_braces (topic audience content_type word_count : string) :
  no_braces topic = true -> no_braces audience = true ->
  no_braces content_type = true -> no_braces word_count = true ->
  no_braces (writing_instructions topic audience content_type word_count) = true.
Proof.
  intros Ht Ha Hc Hw. unfold writing_instructions, lines.
  cbn [String.concat]. rewrite !no_braces_app, Ht, Ha, Hc, Hw. reflexivity.
Qed.

Lemma stale_description
      (X1 X2 : Externals) (key : option string) (l : list Call)
      (topic1 audience1 content_type1 word_count1 topic2 : string)
      (audience2 content_type2 word_count2 : option string) :
  no_braces topic1 = true -> no_braces audience1 = true ->
  no_braces content_type1 = true -> no_braces word_count1 = true ->
  let m1 := snd (create_content X1 topic1 (Some audience1) (Some content_type1)
                                (Some word_count1) (fresh key l)) in
  let m2 := snd (create_content X2 topic2 audience2 content_type2 word_count2 m1) in
  description (writing_task (team m2))
  = writing_instructions topic1 audience1 content_type1 word_count1.
Proof.
  intros Ht Ha Hc Hw m1 m2.
  assert (Hteam1 : team m1 = constructed key
                     (writing_instructions topic1 audience1 content_type1 word_count1)).
  { subst m1. rewrite create_content_cases. cbn [fresh team with_default].
    change (description (writing_task (__init__ key))) with writing_template.
    rewrite format_template, fresh_described.
    destruct (kickoff X1 _) as [[result | e] m'] eqn:Hrun;
      apply kickoff_frame in Hrun; destruct Hrun as [Hteam _]; exact Hteam. }
  subst m2. rewrite create_content_cases. rewrite Hteam1.
  change (description (writing_task (constructed key ?d))) with d.
  rewrite format_no_braces
    by (apply writing_instructions_no_braces; assumption).
  destruct (kickoff X2 _) as [[result | e] m'] eqn:Hrun;
    apply kickoff_frame in Hrun; destruct Hrun as [Hteam _];
    cbn [snd]; rewrite Hteam; reflexivity.
Qed.

(* ------------------------------------------------------------------ *)

(** C7.  The fallback is a function of the parameters alone: two calls with
    the same parameters that both come to the failure path, whatever the
    teams, the logs, the collaborators and the exceptions, return the same
    result; each call returns (the fallback does not fail) and leaves the
    machine as the crew's run left it (the fallback makes no call).  The
    placeholder text the caller renders, and the data it offers for
    download, do not depend on the time stamp, which goes into the file
    name only. *)
Theorem C7_fallback_pure
        (X1 X2 : Externals) (m1 m2 m1' m2' : Machine) (e1 e2 : exn)
        (topic audience content_type word_count d1 d2 : string)
        (slider : Z) (stamp1 stamp2 : string) :
  py_format (extended X1) (description (writing_task (team m1)))
            (kwargs_of topic audience content_type word_count) = Returned d1 ->
  kickoff X1 (described d1 m1) = (Raised e1, m1') ->
  py_format (extended X2) (description (writing_task (team m2)))
            (kwargs_of topic audience content_type word_count) = Returned d2 ->
  kickoff X2 (described d2 m2) = (Raised e2, m2') ->
  (exists r,
      create_content X1 topic (Some audience) (Some content_type) (Some word_count) m1
      = (Returned r, m1')
      /\ create_content X2 topic (Some audience) (Some content_type) (Some word_count) m2
         = (Returned r, m2'))
  /\ shown (show_simulation_content topic audience content_type slider stamp1)
     = shown (show_simulation_content topic audience content_type slider stamp2)
  /\ data (download (show_simulation_content topic audience content_type slider stamp1))
     = data (download (show_simulation_content topic audience content_type slider stamp2)).
Proof.
  intros Hf1 Hk1 Hf2 Hk2. split; [ | split; reflexivity ].
  exists (simulation_result topic audience content_type word_count).
  rewrite !create_content_cases. cbn [with_default].
  rewrite Hf1, Hk1, Hf2, Hk2. split; reflexivity.
Qed.

Lemma C7_fallback_pure_witness :
  py_format (extended all_fail) (description (writing_task (team (fresh None []))))
            (kwargs_of "T" "A" "blog post" "800-1000")
  = Returned (writing_instructions "T" "A" "blog post" "800-1000") /\
  kickoff all_fail (described (writing_instructions "T" "A" "blog post" "800-1000")
                              (fresh None []))
  = (Raised SearchError, snd all_fail_run) /\
  py_format (extended third_completion_fails)
            (description (writing_task (team (fresh (Some "key") []))))
            (kwargs_of "T" "A" "blog post" "800-1000")
  = Returned (writing_instructions "T" "A" "blog post" "800-1000") /\
  kickoff third_completion_fails
          (described (writing_instructions "T" "A" "blog post" "800-1000")
                     (fresh (Some "key") []))
  = (Raised CompletionError, snd third_fails_run) /\
  (exists r,
      create_content all_fail "T" (Some "A") (Some "blog post") (Some "800-1000")
                     (fresh None [])
      = (Returned r, snd all_fail_run)
      /\ create_content third_completion_fails "T" (Some "A") (Some "blog post")
                        (Some "800-1000") (fresh (Some "key") [])
         = (Returned r, snd third_fails_run))
  /\ shown (show_simulation_content "T" "A" "blog post" 900 "20250101_000000")
     = shown (show_simulation_content "T" "A" "blog post" 900 "20251231_235959")
  /\ data (download (show_simulation_content "T" "A" "blog post" 900 "20250101_000000"))
     = data (download (show_simulation_content "T" "A" "blog post" 900 "20251231_235959")).
Proof.
  split; [ reflexivity | ]. split; [ vm_compute; reflexivity | ].
  split; [ reflexivity | ]. split; [ vm_compute; reflexivity | ].
  apply (C7_fallback_pure all_fail third_completion_fails
           (fresh None []) (fresh (Some "key") [])
           (snd all_fail_run) (snd third_fails_run)
           SearchError CompletionError
           "T" "A" "blog post" "800-1000"
           (writing_instructions "T" "A" "blog post" "800-1000")
           (writing_instructions "T" "A" "blog post" "800-1000")
           900 "20250101_000000" "20251231_235959");
    vm_compute; reflexivity.
Defined.

(* ------------------------------------------------------------------ *)

(** C8.  On every reachable machine the crew's task list refers to exactly
    three tasks, whose agents are, in order, the writer, the editor and the
    SEO specialist; so is its list of agents; the writer and the SEO
    specialist have the search tool and the editor has not; and no search
    in the log was made by the editor's stage. *)
Theorem C8_stage_registry (m : Machine) :
  reachable m ->
  map (fun r => role (agent (deref (team m) r))) (tasks (crew (team m)))
  = ["Content Writer"; "Content Editor"; "SEO Specialist"]
  /\ map role (agents (crew (team m)))
     = ["Content Writer"; "Content Editor"; "SEO Specialist"]
  /\ map (fun r => uses_search (agent (deref (team m) r))) (tasks (crew (team m)))
     = [true; false; true]
  /\ map uses_search (agents (crew (team m))) = [true; false; true]
  /\ process (crew (team m)) = sequential
  /\ Forall (fun c => search_by "Content Editor" c = false) (log m).
Proof.
  intros Hm. destruct (reachable_team m Hm) as [key [d Hteam]].
  rewrite Hteam. repeat split.
  apply reachable_no_editor_search. exact Hm.
Qed.

Lemma second_run_reachable : reachable (snd second_run).
Proof.
  eapply reach_run with (m := snd first_run) (o := fst second_run).
  - eapply reach_run with (m := fresh None []) (o := fst first_run).
    + apply reach_init.
    + unfold first_run. apply surjective_pairing.
  - unfold second_run. apply surjective_pairing.
Defined.

Lemma C8_stage_registry_witness :
  reachable (snd second_run) /\
  map (fun r => role (agent (deref (team (snd second_run)) r)))
      (tasks (crew (team (snd second_run))))
  = ["Content Writer"; "Content Editor"; "SEO Specialist"]
  /\ map role (agents (crew (team (snd second_run))))
     = ["Content Writer"; "Content Editor"; "SEO Specialist"]
  /\ map (fun r => uses_search (agent (deref (team (snd second_run)) r)))
         (tasks (crew (team (snd second_run))))
     = [true; false; true]
  /\ map uses_search (agents (crew (team (snd second_run)))) = [true; false; true]
  /\ process (crew (team (snd second_run))) = sequential
  /\ Forall (fun c => search_by "Content Editor" c = false) (log (snd second_run)).
Proof.
  split; [ exact second_run_reachable | ].
  apply (C8_stage_registry (snd second_run)).
  exact second_run_reachable.
Defined.

(* ------------------------------------------------------------------ *)

(** C9.  Whenever a call returns, on either path, the result carries the
    four parameters as they were passed, under [topic], [audience],
    [content_type] and [word_count]. *)
Theorem C9_parameters_echoed
        (X : Externals) (m m' : Machine) (topic audience content_type word_count : string)
        (r : Dict) :
  create_content X topic (Some audience) (Some content_type) (Some word_count) m
  = (Returned r, m') ->
  success_or_simulation r
  /\ dict_get "topic" r = Some (PStr topic)
  /\ dict_get "audience" r = Some (PStr audience)
  /\ dict_get "content_type" r = Some (PStr content_type)
  /\ dict_get "word_count" r = Some (PStr word_count).
Proof.
  rewrite create_content_cases. cbn [with_default].
  destruct (py_format _ _ _) as [d | e]; [ | discriminate ].
  destruct (kickoff X _) as [[result | e] m1];
    intros H; inversion H; subst; clear H; repeat split.
  - left. reflexivity.
  - right. reflexivity.
Qed.

Lemma C9_parameters_echoed_witness :
  create_content all_succeed "T" (Some "A") (Some "blog post") (Some "800-1000")
                 (fresh None [])
  = (Returned (success_result "text 2" "T" "A" "blog post" "800-1000"),
     snd all_succeed_run)
  /\ success_or_simulation (success_result "text 2" "T" "A" "blog post" "800-1000")
  /\ dict_get "topic" (success_result "text 2" "T" "A" "blog post" "800-1000")
     = Some (PStr "T")
  /\ dict_get "audience" (success_result "text 2" "T" "A" "blog post" "800-1000")
     = Some (PStr "A")
  /\ dict_get "content_type" (success_result "text 2" "T" "A" "blog post" "800-1000")
     = Some (PStr "blog post")
  /\ dict_get "word_count" (success_result "text 2" "T" "A" "blog post" "800-1000")
     = Some (PStr "800-1000").
Proof.
  split; [ vm_compute; reflexivity | ].
  apply (C9_parameters_echoed all_succeed (fresh None []) (snd all_succeed_run)
           "T" "A" "blog post" "800-1000").
  vm_compute; reflexivity.
Defined.

(* ------------------------------------------------------------------ *)

(** C10.  A call that passes only a topic is the same call as the one that
    passes "general audience", "blog post" and "800-1000" as well; on a
    fresh team it returns a result that reports these three values. *)
Theorem C10_default_parameters :
  (forall (X : Externals) (topic : string) (m : Machine),
      create_content X topic None None None m
      = create_content X topic (Some "general audience") (Some "blog post")
                       (Some "800-1000") m)
  /\
  (forall (X : Externals) (key : option string) (l : list Call) (topic : string),
      exists r m',
        create_content X topic None None None (fresh key l) = (Returned r, m')
        /\ dict_get "audience" r = Some (PStr "general audience")
        /\ dict_get "content_type" r = Some (PStr "blog post")
        /\ dict_get "word_count" r = Some (PStr "800-1000")).
Proof.
  split.
  - intros X topic m. reflexivity.
  - intros X key l topic. rewrite create_content_cases. cbn [fresh team with_default].
    change (description (writing_task (__init__ key))) with writing_template.
    rewrite format_template.
    destruct (kickoff X _) as [[result | e] m'];
      eexists; eexists; (split; [ reflexivity | ]); repeat split.
Qed.

(* ================================================================== *)
(** * Further properties *)

(** ** Decimal numbers in a text *)

Lemma all_digits_uint (d : Decimal.uint) :
  all_digits (NilEmpty.string_of_uint d) = true.
Proof. induction d; cbn; auto. Qed.

Lemma digits_value_acc (d : Decimal.uint) :
  forall acc : positive,
    digits_value (Npos acc) (NilEmpty.string_of_uint d) = Npos (Pos.of_uint_acc d acc).
Proof.
  induction d; intros acc; cbn [NilEmpty.string_of_uint digits_value Pos.of_uint_acc];
    [ reflexivity | .. ];
    rewrite <- IHd; f_equal;
    match goal with
    | |- context [(N.of_nat (nat_of_ascii ?c) - 48)%N] =>
        let v := eval vm_compute in (N.of_nat (nat_of_ascii c) - 48)%N in
        change (N.of_nat (nat_of_ascii c) - 48)%N with v
    end; lia.
Qed.

Lemma digits_value_uint (d : Decimal.uint) :
  digits_value 0%N (NilEmpty.string_of_uint d) = Pos.of_uint d.
Proof.
  induction d; cbn [NilEmpty.string_of_uint digits_value Pos.of_uint];
    [ reflexivity | exact IHd | .. ];
    apply digits_value_acc.
Qed.

Lemma string_of_uint_nonnil (d : Decimal.uint) :
  d <> Decimal.Nil -> NilZero.string_of_uint d = NilEmpty.string_of_uint d.
Proof. destruct d; [ congruence | reflexivity .. ]. Qed.

Lemma string_of_uint_nonempty (d : Decimal.uint) :
  d <> Decimal.Nil -> NilEmpty.string_of_uint d <> EmptyString.
Proof. destruct d; [ congruence | discriminate .. ]. Qed.

(** Printing a number that is not negative and reading the digits back. *)
Lemma number_str_of_int (z : Z) :
  (0 <= z)%Z -> number (str_of_int z) = Some (Z.to_N z).
Proof.
  intros Hz. unfold str_of_int. destruct z as [ | p | p]; [ reflexivity | | lia ].
  cbn [Z.to_int NilZero.string_of_int Z.to_N].
  pose proof (Unsigned.to_uint_nonnil p) as Hnil.
  rewrite (string_of_uint_nonnil _ Hnil).
  unfold number.
  destruct (NilEmpty.string_of_uint (Pos.to_uint p)) eqn:Hs.
  - exfalso. exact (string_of_uint_nonempty _ Hnil Hs).
  - rewrite <- Hs, all_digits_uint, digits_value_uint, Unsigned.of_to. reflexivity.
Qed.

Lemma all_digits_str_of_int (z : Z) :
  (0 <= z)%Z -> all_digits (str_of_int z) = true.
Proof.
  intros Hz. unfold str_of_int. destruct z as [ | p | p]; [ reflexivity | | lia ].
  cbn [Z.to_int NilZero.string_of_int].
  rewrite (string_of_uint_nonnil _ (Unsigned.to_uint_nonnil p)).
  apply all_digits_uint.
Qed.

(** A text of digits holds no dash, so the first dash after it splits
    there. *)
Lemma split_dash_digits (a b : string) :
  all_digits a = true -> split_dash (a ++ "-" ++ b) = Some (a, b).
Proof.
  change ("-" ++ b) with (String "-" b).
  induction a as [ | c a IH]; [ reflexivity | ].
  cbn [all_digits]. intros H. apply andb_true_iff in H. destruct H as [Hc Ha].
  specialize (IH Ha).
  destruct c as [[] [] [] [] [] [] [] []]; try discriminate Hc;
    cbn [append split_dash]; rewrite IH; reflexivity.
Qed.

(** A negative number prints with a leading dash. *)
Lemma str_of_int_negative (z : Z) :
  (z < 0)%Z -> exists digits, str_of_int z = String "-" digits.
Proof.
  intros Hz. destruct z as [ | p | p]; [ lia | lia | ].
  eexists. reflexivity.
Qed.

(** X1.  The range that the form passes to [create_content],
    [f"{word_count-200}-{word_count+200}"], reads as low-high with low below
    high exactly when the slider value is at least 200; below that the lower
    bound is negative and the text starts with a dash.  The slider goes from
    300 to 3000, so the range it yields is always well formed. *)
Theorem X1_word_count_range_well_formed (word_count : Z) :
  well_formed_range (word_count_range word_count) = true <-> (200 <= word_count)%Z.
Proof.
  unfold well_formed_range, word_count_range. split.
  - intros H. destruct (Z_lt_le_dec word_count 200) as [Hlt | Hge]; [ | exact Hge ].
    exfalso.
    destruct (str_of_int_negative (word_count - 200)) as [digits Hd]; [ lia | ].
    rewrite Hd in H. cbn in H. discriminate H.
  - intros Hge.
    rewrite split_dash_digits by (apply all_digits_str_of_int; lia).
    rewrite !number_str_of_int by lia.
    apply N.ltb_lt. lia.
Qed.

(** ** Texts within texts *)

Lemma prefix_of_app (p s : string) : prefix_of p (p ++ s) = true.
Proof.
  induction p as [ | c p IH]; [ destruct s; reflexivity | ].
  cbn. rewrite Ascii.eqb_refl. exact IH.
Qed.

Lemma contains_here (p s : string) : contains p (p ++ s) = true.
Proof.
  destruct (p ++ s) eqn:E; cbn; rewrite <- E, prefix_of_app; reflexivity.
Qed.

Lemma contains_app_r (p s1 s2 : string) :
  contains p s2 = true -> contains p (s1 ++ s2) = true.
Proof.
  intros H. induction s1 as [ | c s1 IH]; [ exact H | ].
  cbn. rewrite IH. apply orb_true_r.
Qed.


Ltac find_in_text :=
  repeat first [ apply contains_here | apply contains_app_r ].

(** X2.  Whatever the topic, the audience, the content type and the slider
    value are, the placeholder document of [show_simulation_content] holds
    each of them: the three texts as they are and the number in decimal. *)
Theorem X2_simulated_content_mentions_inputs
        (topic audience content_type : string) (word_count : Z) :
  contains topic (simulated_content topic audience content_type word_count) = true
  /\ contains audience (simulated_content topic audience content_type word_count) = true
  /\ contains content_type (simulated_content topic audience content_type word_count) = true
  /\ contains (str_of_int word_count)
              (simulated_content topic audience content_type word_count) = true.
Proof.
  unfold simulated_content. repeat split; find_in_text.
Qed.

(** ** Removing the tags *)

Lemma has_gt_contains (s : string) : has_gt s = contains ">" s.
Proof.
  induction s as [ | c s IH]; [ reflexivity | ].
  cbn. rewrite IH, andb_true_r, Ascii.eqb_sym. reflexivity.
Qed.

Lemma has_gt_app (s1 s2 : string) : has_gt (s1 ++ s2) = orb (has_gt s1) (has_gt s2).
Proof.
  induction s1 as [ | c s1 IH]; [ reflexivity | ].
  cbn. rewrite IH, orb_assoc. reflexivity.
Qed.

(** What is left holds no [>] that the text did not hold. *)
Lemma has_gt_strip_scan (s : string) :
  forall st, has_gt (strip_scan st s) = true -> has_gt s = true.
Proof.
  induction s as [ | c s IH]; intros st; [ destruct st; exact (fun H => H) | ].
  destruct st; cbn [strip_scan].
  - destruct (andb (Ascii.eqb c "<") (opens_tag s)).
    + intros H. cbn. rewrite (IH _ H). apply orb_true_r.
    + cbn. intros H. apply orb_true_iff in H. destruct H as [H | H].
      * rewrite H. reflexivity.
      * rewrite (IH _ H). apply orb_true_r.
  - destruct (Ascii.eqb c ">") eqn:Hc.
    + intros _. cbn. rewrite Hc. reflexivity.
    + intros H. cbn. rewrite (IH _ H). apply orb_true_r.
Qed.

Lemma opens_tag_strip_scan (s : string) :
  opens_tag s = false -> opens_tag (strip_scan OutsideTag s) = false.
Proof.
  destruct s as [ | d s]; [ reflexivity | ].
  unfold opens_tag at 1. intros H.
  destruct (Ascii.eqb d ">") eqn:Hd.
  - assert (Hlt : Ascii.eqb d "<" = false).
    { apply Ascii.eqb_eq in Hd. subst d. reflexivity. }
    cbn [strip_scan]. rewrite Hlt. cbn. rewrite Hd. reflexivity.
  - cbn [negb andb] in H.
    destruct (strip_scan OutsideTag (String d s)) as [ | d' s'] eqn:Hout;
      [ reflexivity | ].
    unfold opens_tag.
    destruct (has_gt (String d' s')) eqn:Hgt; [ | apply andb_false_r ].
    rewrite <- Hout in Hgt. apply has_gt_strip_scan in Hgt. congruence.
Qed.

Lemma strip_scan_twice (s : string) :
  strip_scan OutsideTag (strip_scan OutsideTag s) = strip_scan OutsideTag s
  /\ strip_scan OutsideTag (strip_scan InsideTag s) = strip_scan InsideTag s.
Proof.
  induction s as [ | c s [IHout IHin]]; [ split; reflexivity | ].
  split.
  - cbn [strip_scan].
    destruct (andb (Ascii.eqb c "<") (opens_tag s)) eqn:Hopen; [ exact IHin | ].
    cbn [strip_scan].
    assert (Hstay : andb (Ascii.eqb c "<") (opens_tag (strip_scan OutsideTag s)) = false).
    { apply andb_false_iff in Hopen. apply andb_false_iff.
      destruct Hopen as [Hc | Ho]; [ left; exact Hc | right ].
      apply opens_tag_strip_scan. exact Ho. }
    rewrite Hstay, IHout. reflexivity.
  - cbn [strip_scan]. destruct (Ascii.eqb c ">"); assumption.
Qed.

(** X3.  Removing the tags twice removes no more than removing them once:
    what [re.sub(r'<[^>]+>', '', s)] returns holds no tag. *)
Theorem X3_strip_tags_idempotent (s : string) :
  strip_tags (strip_tags s) = strip_tags s.
Proof. exact (proj1 (strip_scan_twice s)). Qed.

Lemma strip_scan_inside (t b : string) :
  has_gt t = false ->
  strip_scan InsideTag (t ++ String ">" b) = strip_scan OutsideTag b.
Proof.
  induction t as [ | c t IH]; [ reflexivity | ].
  cbn [has_gt]. intros H. apply orb_false_iff in H. destruct H as [Hc Ht].
  cbn [append strip_scan]. rewrite Hc. apply IH. exact Ht.
Qed.

Lemma strip_scan_text (a s : string) :
  contains "<" a = false ->
  strip_scan OutsideTag (a ++ s) = a ++ strip_scan OutsideTag s.
Proof.
  induction a as [ | c a IH]; [ reflexivity | ].
  cbn [contains prefix_of]. intros H. apply orb_false_iff in H. destruct H as [Hc Ha].
  rewrite andb_true_r, Ascii.eqb_sym in Hc.
  cbn [append strip_scan]. rewrite Hc. cbn [andb]. rewrite (IH Ha). reflexivity.
Qed.

(** X4.  One tag between a text [a] without [<] and a rest [b]: the tag, a
    [<], a name [t] that is not empty and holds no [>], and a [>], is
    removed; [a] stays as it is, and the scan goes on with [b]. *)
Theorem X4_strip_tags_removes_tag (a t b : string) :
  contains "<" a = false ->
  t <> EmptyString ->
  contains ">" t = false ->
  strip_tags (a ++ "<" ++ t ++ ">" ++ b) = a ++ strip_tags b.
Proof.
  intros Ha Ht Hgt. rewrite <- has_gt_contains in Hgt.
  unfold strip_tags. rewrite (strip_scan_text _ _ Ha). f_equal.
  change ("<" ++ t ++ ">" ++ b) with (String "<" (t ++ String ">" b)).
  cbn [strip_scan]. cbn [Ascii.eqb Bool.eqb andb].
  assert (Hopen : opens_tag (t ++ String ">" b) = true).
  { destruct t as [ | d t]; [ congruence | ].
    cbn [has_gt] in Hgt. apply orb_false_iff in Hgt. destruct Hgt as [Hd Hrest].
    cbn [append opens_tag]. rewrite Hd. cbn [negb andb].
    change (String d (t ++ String ">" b)) with (String d t ++ String ">" b).
    rewrite has_gt_app. cbn. rewrite Hd, Hrest. destruct (has_gt t); reflexivity. }
  replace (Ascii.eqb "<" "<") with true by reflexivity.
  cbn [andb]. rewrite Hopen. apply strip_scan_inside. exact Hgt.
Qed.

Lemma X4_strip_tags_removes_tag_witness :
  contains "<" "Hello " = false /\
  "b"%string <> EmptyString /\
  contains ">" "b" = false /\
  strip_tags ("Hello " ++ "<" ++ "b" ++ ">" ++ "world</b>") = "Hello " ++ strip_tags "world</b>".
Proof.
  split; [ reflexivity | ]. split; [ discriminate | ]. split; [ reflexivity | ].
  apply (X4_strip_tags_removes_tag "Hello " "b" "world</b>");
    [ reflexivity | discriminate | reflexivity ].
Defined.

(** ** The body of a document *)






(** ** The page after the form is submitted *)

(** X6.  When one of the two keys is missing or empty, the page shows the
    one error and nothing is run: no team is made and no collaborator is
    called. *)
Theorem X6_missing_key_runs_nothing
        (X : Externals) (str_of_exn : exn -> string)
        (google_api serper_api : option string)
        (topic audience content_type : string) (word_count : Z)
        (stamp : string) (l : list Call) :
  truthy google_api = false \/ truthy serper_api = false ->
  main_submitted X str_of_exn google_api serper_api topic audience content_type
                 word_count stamp l
  = Some ([st_error "❌ API keys not configured. Please check your .env file."], l).
Proof.
  intros [H | H]; unfold main_submitted; rewrite H;
    [ reflexivity | rewrite orb_true_r; reflexivity ].
Qed.

Lemma X6_missing_key_runs_nothing_witness :
  (truthy (Some "key") = false \/ truthy (Some "") = false) /\
  main_submitted all_succeed (fun _ => "") (Some "key") (Some "")
                 "T" "A" "blog post" 1000 "20250101_000000" []
  = Some ([st_error "❌ API keys not configured. Please check your .env file."], []).
Proof.
  split; [ right; reflexivity | ].
  apply (X6_missing_key_runs_nothing all_succeed (fun _ => "") (Some "key") (Some "")
           "T" "A" "blog post" 1000 "20250101_000000" []).
  right. reflexivity.
Defined.

(** X7.  With both keys set, a run of the crew that raises, whatever it
    raises, ends on the warning and the simulation page for the topic, the
    audience, the content type and the slider value; the error of the
    [except] branch is not shown, and the call log is the one the run
    left. *)
Theorem X7_failed_run_shows_simulation
        (X : Externals) (str_of_exn : exn -> string)
        (google_api serper_api : option string)
        (topic audience content_type : string) (word_count : Z)
        (stamp : string) (l : list Call) (e : exn) (m' : Machine) :
  truthy google_api = true ->
  truthy serper_api = true ->
  kickoff X {| team := constructed google_api
                         (writing_instructions topic audience content_type
                            (word_count_range word_count));
               log := l |}
  = (Raised e, m') ->
  main_submitted X str_of_exn google_api serper_api topic audience content_type
                 word_count stamp l
  = Some ((st_spinner "🤖 AI agents are working..."
           :: st_warning "⚠️ Content created in simulation mode"
           :: simulation_page topic audience content_type word_count stamp)%list,
          log m').
Proof.
  intros Hg Hs Hrun. unfold main_submitted. rewrite Hg, Hs. cbn [negb orb].
  rewrite create_content_cases. cbn [fresh team with_default].
  change (description (writing_task (__init__ google_api))) with writing_template.
  rewrite format_template, fresh_described, Hrun. reflexivity.
Qed.

Lemma X7_failed_run_shows_simulation_witness :
  truthy (Some "key") = true /\
  truthy (Some "other key") = true /\
  kickoff all_fail
          {| team := constructed (Some "key")
                       (writing_instructions "T" "A" "blog post" (word_count_range 1000));
             log := [] |}
  = (Raised SearchError,
     {| team := constructed (Some "key")
                  (writing_instructions "T" "A" "blog post" (word_count_range 1000));
        log := [ SearchCall "Content Writer"
                            (writing_instructions "T" "A" "blog post" "800-1200") None ] |}) /\
  main_submitted all_fail (fun _ => "") (Some "key") (Some "other key")
                 "T" "A" "blog post" 1000 "20250101_000000" []
  = Some ((st_spinner "🤖 AI agents are working..."
           :: st_warning "⚠️ Content created in simulation mode"
           :: simulation_page "T" "A" "blog post" 1000 "20250101_000000")%list,
          [ SearchCall "Content Writer"
                       (writing_instructions "T" "A" "blog post" "800-1200") None ]).
Proof.
  split; [ reflexivity | ]. split; [ reflexivity | ].
  split; [ vm_compute; reflexivity | ].
  apply (X7_failed_run_shows_simulation all_fail (fun _ => "") (Some "key")
           (Some "other key") "T" "A" "blog post" 1000 "20250101_000000" []
           SearchError
           {| team := constructed (Some "key")
                        (writing_instructions "T" "A" "blog post" (word_count_range 1000));
              log := [ SearchCall "Content Writer"
                                  (writing_instructions "T" "A" "blog post" "800-1200")
                                  None ] |});
    [ reflexivity | reflexivity | vm_compute; reflexivity ].
Defined.

(** ** The team across calls *)

Lemma set_writing_description_same (t : ContentCreationTeam) :
  set_writing_description (description (writing_task t)) t = t.
Proof. destruct t as [? ? ? ? [? ? ?] ? ? ?]. reflexivity. Qed.

(** X8.  After a call on a fresh team, whatever the parameters hold (braces
    too) and whatever the collaborators do, the team is the constructed one
    but for the description of the writing task, which is the template with
    the four values put in as they are. *)
Theorem X8_first_call_fills_template
        (X : Externals) (key : option string) (l : list Call) (topic : string)
        (audience content_type word_count : option string) :
  team (snd (create_content X topic audience content_type word_count (fresh key l)))
  = constructed key
      (writing_instructions topic
         (with_default "general audience" audience)
         (with_default "blog post" content_type)
         (with_default "800-1000" word_count)).
Proof.
  rewrite create_content_cases. cbn [fresh team].
  change (description (writing_task (__init__ key))) with writing_template.
  rewrite format_template, fresh_described.
  destruct (kickoff X _) as [[result | e] m'] eqn:Hrun;
    apply kickoff_frame in Hrun; destruct Hrun as [Hteam _]; exact Hteam.
Qed.

(** X9.  Once the description of the writing task holds no brace, a call
    leaves the whole team as it is, whatever its parameters: the stored
    description is what the writer is instructed with from then on. *)
Theorem X9_description_without_braces_stays
        (X : Externals) (m : Machine) (topic : string)
        (audience content_type word_count : option string) :
  no_braces (description (writing_task (team m))) = true ->
  team (snd (create_content X topic audience content_type word_count m)) = team m.
Proof.
  intros Hfree. rewrite create_content_cases.
  rewrite (format_no_braces _ _ _ Hfree).
  destruct (kickoff X _) as [[result | e] m'] eqn:Hrun;
    apply kickoff_frame in Hrun; destruct Hrun as [Hteam _];
    cbn [snd]; rewrite Hteam; apply set_writing_description_same.
Qed.

Lemma X9_description_without_braces_stays_witness :
  no_braces (description (writing_task (team (snd first_run)))) = true /\
  team (snd (create_content all_fail "B" (Some "C") None None (snd first_run)))
  = team (snd first_run).
Proof.
  split; [ vm_compute; reflexivity | ].
  apply (X9_description_without_braces_stays all_fail (snd first_run) "B"
           (Some "C") None None).
  vm_compute; reflexivity.
Defined.

(** X10.  Calls change nothing in a team but the description of its writing
    task: after any number of calls, from any machine, the team is the one
    the calls started from with that description replaced; the LLM settings
    with their key, the three agents, the editing and the SEO task and the
    crew are the same. *)
Theorem X10_calls_keep_the_team (m m' : Machine) :
  reaches m m' ->
  (exists d, team m' = set_writing_description d (team m))
  /\ llm (team m') = llm (team m)
  /\ writer_agent (team m') = writer_agent (team m)
  /\ editor_agent (team m') = editor_agent (team m)
  /\ seo_agent (team m') = seo_agent (team m)
  /\ agent (writing_task (team m')) = agent (writing_task (team m))
  /\ expected_output (writing_task (team m')) = expected_output (writing_task (team m))
  /\ editing_task (team m') = editing_task (team m)
  /\ seo_task (team m') = seo_task (team m)
  /\ crew (team m') = crew (team m).
Proof.
  intros Hreach.
  assert (Hframe : exists d, team m' = set_writing_description d (team m)).
  { induction Hreach as [m | X topic audience content_type word_count m m1 m2 o _ IH Hrun].
    - exists (description (writing_task (team m))).
      symmetry. apply set_writing_description_same.
    - destruct IH as [d1 Hteam1].
      apply create_content_team in Hrun. destruct Hrun as [d Hteam2].
      exists d. rewrite Hteam2, Hteam1. reflexivity. }
  split; [ exact Hframe | ].
  destruct Hframe as [d Hteam]. rewrite Hteam. repeat split.
Qed.

Lemma keyed_second_run_reaches :
  reaches (fresh (Some "secret") []) (snd keyed_second_run).
Proof.
  eapply reaches_call with (m1 := snd keyed_first_run) (o := fst keyed_second_run).
  - eapply reaches_call with (m1 := fresh (Some "secret") []) (o := fst keyed_first_run).
    + apply reaches_refl.
    + unfold keyed_first_run. apply surjective_pairing.
  - unfold keyed_second_run. apply surjective_pairing.
Defined.

Lemma X10_calls_keep_the_team_witness :
  reaches (fresh (Some "secret") []) (snd keyed_second_run) /\
  (exists d, team (snd keyed_second_run)
             = set_writing_description d (team (fresh (Some "secret") [])))
  /\ llm (team (snd keyed_second_run)) = llm (team (fresh (Some "secret") []))
  /\ writer_agent (team (snd keyed_second_run))
     = writer_agent (team (fresh (Some "secret") []))
  /\ editor_agent (team (snd keyed_second_run))
     = editor_agent (team (fresh (Some "secret") []))
  /\ seo_agent (team (snd keyed_second_run)) = seo_agent (team (fresh (Some "secret") []))
  /\ agent (writing_task (team (snd keyed_second_run)))
     = agent (writing_task (team (fresh (Some "secret") [])))
  /\ expected_output (writing_task (team (snd keyed_second_run)))
     = expected_output (writing_task (team (fresh (Some "secret") [])))
  /\ editing_task (team (snd keyed_second_run))
     = editing_task (team (fresh (Some "secret") []))
  /\ seo_task (team (snd keyed_second_run)) = seo_task (team (fresh (Some "secret") []))
  /\ crew (team (snd keyed_second_run)) = crew (team (fresh (Some "secret") [])).
Proof.
  split; [ exact keyed_second_run_reaches | ].
  apply (X10_calls_keep_the_team (fresh (Some "secret") []) (snd keyed_second_run)).
  exact keyed_second_run_reaches.
Defined.

(** ** The pages of new_streamlit_app.py *)

(** X11.  With both keys set, the page of new_streamlit_app.py is decided by
    the crew's run on a fresh team.  When the run returns, [display_results]
    shows the output as it is, tags and all, and offers it for download;
    the default text for a missing output is never shown.  When the run
    raises, the warning and [show_simulation_mode] are shown.  On both paths
    the page ends with the progress bar at 100 and the status line saying
    that the generation is complete; the error of the [except] branch is
    never shown. *)
Theorem X11_new_page_follows_the_run
        (X : Externals) (str_of_exn : exn -> string)
        (google_api serper_api : option string)
        (topic audience content_type : string) (word_count : Z)
        (stamp : string) (l : list Call) :
  truthy google_api = true ->
  truthy serper_api = true ->
  new_main_submitted X str_of_exn google_api serper_api topic audience content_type
                     word_count stamp l
  = let before_results :=
      [ st_progress 0; st_empty;
        status_text_text "🤖 Initializing AI agents..."; progress_bar_progress 10;
        status_text_text "📝 Creating content..."; progress_bar_progress 30;
        progress_bar_progress 80; status_text_text "✨ Finalizing content..." ] in
    let after_results :=
      [ progress_bar_progress 100;
        status_text_text "✅ Content generation complete!" ] in
    match kickoff X {| team := constructed google_api
                                 (writing_instructions topic audience content_type
                                    (word_count_range word_count));
                       log := l |} with
    | (Returned content, m') =>
        Some ((before_results
               ++ [ st_success "🎉 Content created successfully!";
                    st_columns 4;
                    st_metric 1 "Topic" (MStr topic);
                    st_metric 2 "Audience" (MStr audience);
                    st_metric 3 "Type" (MStr content_type);
                    st_metric 4 "Word Count" (MInt word_count);
                    st_subheader "📄 Generated Content";
                    st_markdown content;
                    st_download_button "📥 Download Content" content
                                       ("content_" ++ stamp ++ ".txt") "text/plain" ]
               ++ after_results)%list,
              log m')
    | (Raised _, m') =>
        Some ((before_results
               ++ st_warning "⚠️ Content created in simulation mode"
                  :: show_simulation_mode topic audience content_type word_count stamp
               ++ after_results)%list,
              log m')
    end.
Proof.
  intros Hg Hs. unfold new_main_submitted. rewrite Hg, Hs. cbn [negb orb].
  rewrite create_content_cases. cbn [fresh team with_default].
  change (description (writing_task (__init__ google_api))) with writing_template.
  rewrite format_template, fresh_described.
  destruct (kickoff X _) as [[content | e] m']; reflexivity.
Qed.

Lemma X11_new_page_follows_the_run_witness :
  truthy (Some "key") = true /\
  truthy (Some "other key") = true /\
  new_main_submitted all_fail (fun _ => "") (Some "key") (Some "other key")
                     "T" "A" "blog post" 1000 "20250101_000000" []
  = Some (([ st_progress 0; st_empty;
             status_text_text "🤖 Initializing AI agents..."; progress_bar_progress 10;
             status_text_text "📝 Creating content..."; progress_bar_progress 30;
             progress_bar_progress 80; status_text_text "✨ Finalizing content..." ]
           ++ st_warning "⚠️ Content created in simulation mode"
              :: show_simulation_mode "T" "A" "blog post" 1000 "20250101_000000"
           ++ [ progress_bar_progress 100;
                status_text_text "✅ Content generation complete!" ])%list,
          [ SearchCall "Content Writer"
                       (writing_instructions "T" "A" "blog post" "800-1200") None ]).
Proof.
  split; [ reflexivity | ]. split; [ reflexivity | ].
  rewrite (X11_new_page_follows_the_run all_fail (fun _ => "") (Some "key")
             (Some "other key") "T" "A" "blog post" 1000 "20250101_000000" []
             eq_refl eq_refl).
  vm_compute. reflexivity.
Defined.

(** X12.  [test_system] runs the crew once on a fresh team, with the topic
    "Test Topic" and the range "500-600", and shows one message under the
    spinner: the success message when the run returns and the warning when
    it raises.  The message of a failed test is never shown for a failure of
    a collaborator. *)
Theorem X12_test_system_follows_the_run
        (X : Externals) (str_of_exn : exn -> string) (key : option string)
        (l : list Call) :
  test_system X str_of_exn key l
  = match kickoff X {| team := constructed key
                                 (writing_instructions "Test Topic" "test audience"
                                                       "blog post" "500-600");
                       log := l |} with
    | (Returned _, m') =>
        ([st_spinner "Testing system..."; st_success "✅ System test successful!"],
         log m')
    | (Raised _, m') =>
        ([ st_spinner "Testing system...";
           st_warning "⚠️ System test completed in simulation mode" ],
         log m')
    end.
Proof.
  unfold test_system.
  rewrite create_content_cases. cbn [fresh team with_default].
  change (description (writing_task (__init__ key))) with writing_template.
  rewrite format_template, fresh_described.
  destruct (kickoff X _) as [[content | e] m']; reflexivity.
Qed.
